(** * CVPerfect backend: subscription gate, resume endpoints and token
    authentication

    A shallow embedding of [backend/app/api/resume.py],
    [backend/app/routers/auth.py] and the exception handler of
    [backend/main.py].

    - Tables keyed by a primary key are finite maps from the key to the
      remaining columns; an ORM object is the key paired with its columns.
      Append-only tables (versions, analytics) are lists.
    - A handler is a function from the world (database, record of calls to
      the external AI service, queued background tasks, clock) to the new
      world and either a raised exception or the returned value.
    - The external collaborators (AI client, JWT library, password hashing,
      the database's reading of strings as numbers) are parameters of the
      development. *)

From stdpp Require Import base option list strings gmap fin_maps sorting.

Local Open Scope Z_scope.

(** ** Python values *)

(** Truthiness of an [Optional[str]]: [None] and the empty string are falsy. *)
Definition truthy (o : option string) : bool :=
  match o with
  | Some s => negb (String.eqb s "")
  | None => false
  end.

(** [a or b] on optional strings. *)
Definition py_or (a b : option string) : option string :=
  if truthy a then a else b.

(** Truthiness of an optional number: [None] and [0] are falsy. *)
Definition truthy_num (o : option Z) : bool :=
  match o with
  | Some z => negb (z =? 0)
  | None => false
  end.

(** JSON values as far as the handlers look at them. *)
Inductive JsonValue :=
| JNull
| JNum (z : Z)
| JStr (s : string).

Global Instance JsonValue_eq_dec : EqDecision JsonValue.
Proof. solve_decision. Defined.

(** [d.get(k)]: [None] when the key is missing. *)
Definition py_get (d : gmap string JsonValue) (k : string) : JsonValue :=
  default JNull (d !! k).

(** ** Exceptions and responses *)

Record HTTPException := mkHTTPException {
  status_code : Z;
  detail : string;
  headers : list (string * string)
}.

(** What a handler can raise: an [HTTPException], or any other Python
    exception (an error of the AI client, a [NameError], ...), kept as its
    message. *)
Inductive Exception :=
| HTTPError (e : HTTPException)
| OtherError (msg : string).

(** [main.py]: an [HTTPException] is answered with its own status code and
    its detail as the body. *)
Definition http_exception_handler (exc : HTTPException) : Z * string :=
  (status_code exc, detail exc).

(** The status the client sees: that of [http_exception_handler] for an
    [HTTPException]; the framework answers any other exception with 500 and
    a returned value with 200. *)
Definition response_status {A} (r : Exception + A) : Z :=
  match r with
  | inr _ => 200
  | inl (HTTPError e) => (http_exception_handler e).1
  | inl (OtherError _) => 500
  end.

(** ** Data model *)

(** Modelled from the spec: the tiers of [models/user.py], which is not among
    the sources; free, one-time and pro are the tiers the spec lists and the
    handlers compare with. *)
Inductive SubscriptionType := FREE | ONE_TIME | PRO.

Global Instance SubscriptionType_eq_dec : EqDecision SubscriptionType.
Proof. solve_decision. Defined.

(** Modelled from the spec: the action types of [models/analytics.py], as
    far as the handlers name them. *)
Inductive ActionType :=
| RESUME_UPLOAD
| RESUME_ENHANCE
| RESUME_ANALYZE
| RESUME_DOWNLOAD
| COVER_LETTER_GENERATE.

Global Instance ActionType_eq_dec : EqDecision ActionType.
Proof. solve_decision. Defined.

(** The [subscription] dictionary [signup] stores on a new user. *)
Record Subscription := mkSubscription {
  sub_status : string;
  sub_plan : string;
  sub_expiresAt : option Z
}.

(** Modelled from the spec: the user model ([models/user.py]), with the
    columns the handlers read and write. These are the columns of a user row
    other than its primary key. *)
Record User := mkUser {
  email : string;
  password : string;
  full_name : string;
  subscription : Subscription;
  subscription_type : SubscriptionType;
  remaining_enhancements : Z
}.

(** Modelled from the spec: the resume model ([models/resume.py]), with the
    columns the handlers read and write. These are the columns of a resume
    row other than its primary key. *)
Record Resume := mkResume {
  user_id : string;
  original_content : string;
  job_description : option string;
  linkedin_url : option string;
  enhanced_content : option string;
  score : option Z;
  feedback : option string;
  learning_suggestions : option string;
  cover_letter : option string;
  created_at : Z
}.

(** Modelled from the spec: the version snapshot of [models/resume.py]. *)
Record ResumeVersion := mkResumeVersion {
  rv_resume_id : Z;
  rv_content : string;
  rv_version_number : Z
}.

Inductive MetaValue :=
| MBool (b : bool)
| MStr (s : string).

(** Modelled from the spec: the event log of [models/analytics.py]. *)
Record Analytics := mkAnalytics {
  an_user_id : string;
  an_resume_id : option Z;
  an_action_type : ActionType;
  an_metadata : list (string * MetaValue);
  an_created_at : Z
}.

(** ORM objects: primary key and columns. *)
Definition UserObj : Type := string * User.
Definition ResumeObj : Type := Z * Resume.

Record Db := mkDb {
  users : gmap string User;
  resumes : gmap Z Resume;
  versions : list ResumeVersion;
  analytics : list Analytics
}.

(** Column writes, as the ORM flushes them ([UPDATE ... WHERE id = pk]). *)
Definition set_remaining_enhancements (n : Z) (u : User) : User :=
  mkUser (email u) (password u) (full_name u) (subscription u)
         (subscription_type u) n.

Definition set_subscription_type (t : SubscriptionType) (u : User) : User :=
  mkUser (email u) (password u) (full_name u) (subscription u)
         t (remaining_enhancements u).

Definition set_scoring (s : Z) (f g : string) (r : Resume) : Resume :=
  mkResume (user_id r) (original_content r) (job_description r)
           (linkedin_url r) (enhanced_content r) (Some s) (Some f) (Some g)
           (cover_letter r) (created_at r).

Definition set_cover_letter (c : string) (r : Resume) : Resume :=
  mkResume (user_id r) (original_content r) (job_description r)
           (linkedin_url r) (enhanced_content r) (score r) (feedback r)
           (learning_suggestions r) (Some c) (created_at r).

Definition with_users (f : gmap string User → gmap string User) (d : Db) : Db :=
  mkDb (f (users d)) (resumes d) (versions d) (analytics d).

Definition with_resumes (f : gmap Z Resume → gmap Z Resume) (d : Db) : Db :=
  mkDb (users d) (f (resumes d)) (versions d) (analytics d).

Definition with_versions (f : list ResumeVersion → list ResumeVersion) (d : Db) : Db :=
  mkDb (users d) (resumes d) (f (versions d)) (analytics d).

Definition with_analytics (f : list Analytics → list Analytics) (d : Db) : Db :=
  mkDb (users d) (resumes d) (versions d) (f (analytics d)).

(** ** Effects

    A write is applied to the database where the handler makes it. In each
    handler nothing can raise between a write and the [db.commit()] that
    follows it, so a write that is made is a write that is committed, and a
    handler that raises before its first write leaves the database as it
    found it. *)

(** Awaited calls to the external AI service, in the order they were made. *)
Inductive AiCall :=
| ScoreResume (content : string) (jd : option string)
| GenerateCoverLetter (content job company position : string)
| AnalyzeResumeContent (content : string) (jd : option string).

(** Tasks handed to [background_tasks.add_task]; they run after the response. *)
Inductive BackgroundTask :=
| ExtractLinkedinProfile (url : string) (resume_id : Z)
| EnhanceResume (resume_id : Z) (jd : option string).

Record World := mkWorld {
  db : Db;
  ai_calls : list AiCall;
  background_tasks : list BackgroundTask;
  utcnow : Z
}.

Definition Handler (A : Type) : Type := World → World * (Exception + A).

Definition ret {A} (a : A) : Handler A := λ w, (w, inr a).

Definition raise {A} (e : Exception) : Handler A := λ w, (w, inl e).

Definition bind {A B} (m : Handler A) (k : A → Handler B) : Handler B :=
  λ w, match m w with
       | (w', inr a) => k a w'
       | (w', inl e) => (w', inl e)
       end.

(** [try: m except Exception as e: h e]. *)
Definition try_except {A} (m : Handler A) (h : Exception → Handler A) : Handler A :=
  λ w, match m w with
       | (w', inr a) => (w', inr a)
       | (w', inl e) => h e w'
       end.

Declare Scope handler_scope.
Delimit Scope handler_scope with handler.
Notation "'let*' x := m 'in' k" := (bind m (λ x, k))
  (at level 10, x pattern, m at level 100, k at level 200) : handler_scope.
Notation "m ;; k" := (bind m (λ _, k))
  (at level 100, k at level 200, right associativity) : handler_scope.

Definition raise_http {A} (code : Z) (msg : string) : Handler A :=
  raise (HTTPError (mkHTTPException code msg [])).

Definition get_db : Handler Db := λ w, (w, inr (db w)).

Definition now : Handler Z := λ w, (w, inr (utcnow w)).

Definition modify_db (f : Db → Db) : Handler unit :=
  λ w, (mkWorld (f (db w)) (ai_calls w) (background_tasks w) (utcnow w), inr tt).

(** An awaited call to the AI service: recorded, then its result or its
    exception. *)
Definition await {A} (c : AiCall) (r : Exception + A) : Handler A :=
  λ w, (mkWorld (db w) (ai_calls w ++ [c]) (background_tasks w) (utcnow w), r).

Definition add_task (t : BackgroundTask) : Handler unit :=
  λ w, (mkWorld (db w) (ai_calls w) (background_tasks w ++ [t]) (utcnow w), inr tt).

(** ** Queries *)

(** [db.query(Resume).filter(Resume.id == rid, Resume.user_id == uid).first()] *)
Definition query_resume (d : Db) (rid : Z) (uid : string) : option ResumeObj :=
  match resumes d !! rid with
  | Some r => if decide (user_id r = uid) then Some (rid, r) else None
  | None => None
  end.

(** [db.query(User).filter(User.id == uid).first()] *)
Definition query_user (d : Db) (uid : string) : option UserObj :=
  match users d !! uid with
  | Some u => Some (uid, u)
  | None => None
  end.

(** [db.query(User).filter(User.email == e).first()] *)
Definition query_user_by_email (d : Db) (e : string) : option UserObj :=
  head (filter (λ o : UserObj, email o.2 = e) (map_to_list (users d))).

(** [order_by(created_at.desc())] *)
Definition newest_first {A} (at_ : A → Z) (l : list A) : list A :=
  merge_sort (λ x y, Is_true (at_ y <=? at_ x)) l.

(** [db.add(resume); db.commit(); db.refresh(resume)]: the row is stored
    under a primary key the table does not use yet. *)
Definition add_resume (r : Resume) : Handler ResumeObj :=
  λ w, let rid := fresh (dom (resumes (db w))) in
       (mkWorld (with_resumes (insert rid r) (db w)) (ai_calls w)
                (background_tasks w) (utcnow w),
        inr (rid, r)).

Definition add_version (v : ResumeVersion) : Handler unit :=
  modify_db (with_versions (λ l, l ++ [v])).

Definition add_analytics (uid : string) (rid : Z) (a : ActionType)
    (meta : list (string * MetaValue)) : Handler unit :=
  λ w, modify_db (with_analytics
         (λ l, l ++ [mkAnalytics uid (Some rid) a meta (utcnow w)])) w.

(** ** Request and response schemas

    Modelled from the spec: [schemas/resume.py] is not among the sources; the
    fields are those the handlers read and return. *)

Record ResumeCreate := mkResumeCreate {
  rc_content : string;
  rc_job_description : option string;
  rc_linkedin_url : option string
}.

Record ResumeEnhanceRequest := mkResumeEnhanceRequest {
  er_resume_id : Z;
  er_job_description : option string
}.

Record CoverLetterRequest := mkCoverLetterRequest {
  cl_resume_id : Z;
  cl_job_description : string;
  cl_company_name : string;
  cl_position : string
}.

Record ResumeScoreResponse := mkResumeScoreResponse {
  rs_score : option Z;
  rs_feedback : option string;
  rs_learning_suggestions : option string
}.

Record HistoryItem := mkHistoryItem {
  hi_action : ActionType;
  hi_timestamp : Z;
  hi_resume_id : option Z;
  hi_metadata : list (string * MetaValue)
}.

Record DownloadItem := mkDownloadItem {
  di_timestamp : Z;
  di_format : option MetaValue;
  di_resume_id : option Z
}.

Record DownloadStats := mkDownloadStats {
  total_downloads : Z;
  remaining_downloads : Z;
  download_history : list DownloadItem
}.

(** [resume.enhanced_content or resume.original_content] *)
Definition resume_text (r : Resume) : string :=
  if truthy (enhanced_content r)
  then default "" (enhanced_content r)
  else original_content r.

(** ** [backend/app/routers/auth.py] *)

Record UserCreate := mkUserCreate {
  uc_email : string;
  uc_password : string;
  uc_fullName : string
}.

Record OAuth2PasswordRequestForm := mkForm {
  username : string;
  form_password : string
}.

Record TokenResponse (Token : Type) := mkTokenResponse {
  access_token : Token;
  token_type : string
}.
Arguments mkTokenResponse {Token} _ _.
Arguments access_token {Token} _.
Arguments token_type {Token} _.

(** A [timedelta], and every time stamp, in whole seconds. *)
Definition timedelta_minutes (m : Z) : Z := 60 * m.
Definition timedelta_hours (h : Z) : Z := 3600 * h.

Definition ALGORITHM : string := "HS256".
Definition ACCESS_TOKEN_EXPIRE_MINUTES : Z := 30.

Definition credentials_exception : Exception :=
  HTTPError (mkHTTPException 401 "Could not validate credentials"
               [("WWW-Authenticate", "Bearer")]).

(** What evaluating the clause [except jwt.JWTError] raises: the [jwt]
    module the file imports has no attribute of that name, so whenever an
    exception reaches the clause (a failure of [jwt.decode], or the
    [credentials_exception] raised inside the [try] for a missing subject)
    the clause itself fails, and that failure is what leaves the function. *)
Definition jwt_attribute_error : Exception :=
  OtherError "AttributeError: module 'jwt' has no attribute 'JWTError'".

(** What evaluating a name the module neither defines nor imports raises. *)
Definition name_error (name : string) : Exception :=
  OtherError ("NameError: name '" +:+ name +:+ "' is not defined").

Definition reset_message : string :=
  "If an account exists with this email, you will receive password reset instructions".

(** [db.query(User).filter(User.id == user_id).first()] for the subject of a
    decoded token: user ids are strings ([UserResponse.id : str]), and a
    subject that is not a string equals no id. *)
Definition query_user_by_subject (d : Db) (user_id : JsonValue) : option UserObj :=
  match user_id with
  | JStr uid => query_user d uid
  | _ => None
  end.

(** ** Collaborators

    What the handlers use and the sources shown do not define: the JWT
    library, the password hashing context, the secret of the environment,
    the column defaults of the user model, the awaited functions of
    [core/ai.py], the two names [resume.py] uses without binding them, the
    database's reading of a string as an id, and Python's [str] on
    exceptions. *)
Class Collaborators := {
  (** Bearer tokens: [str] in the source, opaque here since only the JWT
      library looks inside them. *)
  Token : Type;
  (** [JWT_SECRET_KEY] of the environment. *)
  SECRET_KEY : string;
  (** [jwt.encode(payload, key, algorithm)]. *)
  jwt_encode : gmap string JsonValue → string → string → Token;
  (** [jwt.decode(token, key, algorithms)] at a given time: the payload, or
      [None] when the library raises (a bad signature, a malformed or an
      expired token). *)
  jwt_decode :
    Token → string → list string → Z → option (gmap string JsonValue);
  (** [pwd_context.verify] and [pwd_context.hash]. *)
  pwd_verify : string → string → bool;
  pwd_hash : string → string;
  (** Column defaults for the columns [signup] does not set. *)
  default_subscription_type : SubscriptionType;
  default_remaining_enhancements : Z;
  (** The awaited functions of [core/ai.py]: a result, or the exception the
      call raises. *)
  score_resume : string → option string → Exception + (Z * string * string);
  generate_cover_letter :
    string → string → string → string → Exception + string;
  (** What evaluating [analyze_resume_content(...)] and
      [is_valid_developer_code(code)] gives. [resume.py] neither defines nor
      imports either name, so in the module as it stands both raise
      [NameError] ([names_unbound] below); they are parameters so that
      what is proved of the handlers does not depend on it. *)
  analyze_resume_content : string → option string → Exception + string;
  is_valid_developer_code : JsonValue → Exception + bool;
  (** How the database reads a string that is compared with an integer id:
      a numeric string such as ["1"] is read as the number, and [None]
      stands for a string that equals no id. *)
  db_integer_of_string : string → option Z;
  (** [str(e)] for a caught exception. *)
  exception_str : Exception → string
}.

Section Backend.

Context {collaborators : Collaborators}.

Local Open Scope handler_scope.

Definition verify_password (plain_password hashed_password : string) : bool :=
  pwd_verify plain_password hashed_password.

Definition get_password_hash (pw : string) : string := pwd_hash pw.

Definition create_access_token (data : gmap string JsonValue)
    (expires_delta : option Z) : Handler Token :=
  let* t := now in
  let expire :=
    match expires_delta with
    | Some delta => if delta =? 0 then t + timedelta_minutes 15 else t + delta
    | None => t + timedelta_minutes 15
    end in
  ret (jwt_encode (<["exp" := JNum expire]> data) SECRET_KEY ALGORITHM).

(** Inside the [try], a failure of [jwt.decode] and the
    [credentials_exception] raised for a missing subject both reach
    [except jwt.JWTError], and leave as [jwt_attribute_error]; the lookup of
    the user comes after the [try], and its [credentials_exception] leaves
    as it is. *)
Definition get_current_user (token : Token) : Handler UserObj :=
  let* t := now in
  let* d := get_db in
  match jwt_decode token SECRET_KEY [ALGORITHM] t with
  | None => raise jwt_attribute_error
  | Some payload =>
      match py_get payload "sub" with
      | JNull => raise jwt_attribute_error
      | user_id =>
          match query_user_by_subject d user_id with
          | None => raise credentials_exception
          | Some user => ret user
          end
      end
  end.

Definition signup (user_data : UserCreate) : Handler UserObj :=
  (* Check if user already exists *)
  let* d := get_db in
  match query_user_by_email d (uc_email user_data) with
  | Some _ => raise_http 400 "Email already registered"
  | None =>
      (* Create new user *)
      let hashed_password := get_password_hash (uc_password user_data) in
      let db_user :=
        mkUser (uc_email user_data) hashed_password (uc_fullName user_data)
               (mkSubscription "inactive" "free" None)
               default_subscription_type default_remaining_enhancements in
      let uid := fresh (dom (users d)) in
      modify_db (with_users (insert uid db_user)) ;;
      ret (uid, db_user)
  end.

Definition signin (form_data : OAuth2PasswordRequestForm)
    : Handler (TokenResponse Token) :=
  (* Authenticate user *)
  let* d := get_db in
  match query_user_by_email d (username form_data) with
  | None =>
      raise (HTTPError (mkHTTPException 401 "Incorrect email or password"
                          [("WWW-Authenticate", "Bearer")]))
  | Some user =>
      if negb (verify_password (form_password form_data) (password user.2))
      then raise (HTTPError (mkHTTPException 401 "Incorrect email or password"
                               [("WWW-Authenticate", "Bearer")]))
      else
        (* Create access token *)
        let access_token_expires :=
          timedelta_minutes ACCESS_TOKEN_EXPIRE_MINUTES in
        let* tok := create_access_token {["sub" := JStr user.1]}
                      (Some access_token_expires) in
        ret (mkTokenResponse tok "bearer")
  end.

(** The cookie [signout] deletes lives on the response, outside the world. *)
Definition signout : Handler string := ret "Successfully signed out".

Definition get_current_user_info (current_user : UserObj) : Handler UserObj :=
  ret current_user.

Definition reset_password (email_ : string) : Handler string :=
  let* d := get_db in
  match query_user_by_email d email_ with
  | None =>
      (* Don't reveal that the email doesn't exist *)
      ret reset_message
  | Some user =>
      (* Generate password reset token *)
      let* reset_token :=
        create_access_token
          (<["type" := JStr "password_reset"]> {["sub" := JStr user.1]})
          (Some (timedelta_hours 1)) in
      ret reset_message
  end.

(** ** [backend/app/api/resume.py] *)

(** A raw request: its bearer token, and what [await request.json()]
    gives. *)
Record Request := mkRequest {
  req_token : Token;
  req_json : Exception + gmap string JsonValue
}.

(** [Resume.id == resume_id] for a value read from a JSON body: a number
    equals the id it is, a string the id the database reads it as, and
    [null] (also what [data.get] gives for a missing key) no id. *)
Definition query_resume_json (d : Db) (resume_id : JsonValue) (uid : string)
    : option ResumeObj :=
  match resume_id with
  | JNum rid => query_resume d rid uid
  | JStr s =>
      match db_integer_of_string s with
      | Some rid => query_resume d rid uid
      | None => None
      end
  | JNull => None
  end.

(** Modelled from the spec: the [get_current_user] that [resume.py] imports
    from [app/api/auth.py] and declares as the dependency of its handlers;
    that module is not among the sources. Section 4.2 of the spec has the
    current user resolved "by decoding the token subject and looking up the
    user row", with the failure modes "invalid/expired token: 401; unknown
    user id in a valid token: 401". *)
Definition api_auth_get_current_user (token : Token) : Handler UserObj :=
  let* t := now in
  let* d := get_db in
  match jwt_decode token SECRET_KEY [ALGORITHM] t with
  | None => raise credentials_exception
  | Some payload =>
      match query_user_by_subject d (py_get payload "sub") with
      | None => raise credentials_exception
      | Some user => ret user
      end
  end.

(** Modelled from the spec: [get_current_user(request, db)] as
    [validate_developer_code] calls it, the function being the one imported
    from [app/api/auth.py]. The [Request] object stands where the bearer
    token is expected; it is no valid token, and for an invalid token the
    spec has the resolution fail with 401. *)
Definition get_current_user_of_request (request : Request)
    : Handler UserObj :=
  raise credentials_exception.

(** An awaited call whose name may be unbound: when evaluating it raises,
    nothing was called; when it returns, the call is on record. *)
Definition evaluate {A} (c : AiCall) (r : Exception + A) : Handler A :=
  match r with
  | inl e => raise e
  | inr a => await c (inr a)
  end.

Definition request_json (request : Request)
    : Handler (gmap string JsonValue) :=
  λ w, (w, req_json request).

Definition upload_resume (resume_data : ResumeCreate)
    (current_user : UserObj) : Handler ResumeObj :=
  (* Check subscription limits *)
  match subscription_type current_user.2 with
  | FREE =>
      raise_http 403
        "Free users cannot upload resumes. Please upgrade your subscription."
  | ONE_TIME =>
      if remaining_enhancements current_user.2 <=? 0
      then raise_http 403
        "No remaining enhancements. Please purchase more or upgrade to Pro."
      else ret tt
  | PRO => ret tt
  end ;;
  (* Create resume *)
  let* t := now in
  let* resume := add_resume
    (mkResume current_user.1 (rc_content resume_data)
       (rc_job_description resume_data) (rc_linkedin_url resume_data)
       None None None None None t) in
  (* Create initial version *)
  add_version (mkResumeVersion resume.1 (rc_content resume_data) 1) ;;
  (* Track analytics *)
  add_analytics current_user.1 resume.1 RESUME_UPLOAD
    [("has_job_description", MBool (truthy (rc_job_description resume_data)));
     ("has_linkedin", MBool (truthy (rc_linkedin_url resume_data)))] ;;
  (* If LinkedIn URL provided, extract profile in background *)
  (if truthy (rc_linkedin_url resume_data)
   then add_task (ExtractLinkedinProfile
                    (default "" (rc_linkedin_url resume_data)) resume.1)
   else ret tt) ;;
  ret resume.

Definition enhance_resume_endpoint (request : ResumeEnhanceRequest)
    (current_user : UserObj) : Handler ResumeObj :=
  (* Get resume *)
  let* d := get_db in
  match query_resume d (er_resume_id request) current_user.1 with
  | None => raise_http 404 "Resume not found"
  | Some resume =>
      (* Check subscription limits *)
      match subscription_type current_user.2 with
      | FREE =>
          raise_http 403
            "Free users cannot enhance resumes. Please upgrade your subscription."
      | ONE_TIME =>
          if remaining_enhancements current_user.2 <=? 0
          then raise_http 403
            "No remaining enhancements. Please purchase more or upgrade to Pro."
          else modify_db (with_users
                 (alter (set_remaining_enhancements
                           (remaining_enhancements current_user.2 - 1))
                        current_user.1))
      | PRO => ret tt
      end ;;
      (* Enhance resume in background *)
      add_task (EnhanceResume resume.1
                  (py_or (er_job_description request)
                         (job_description resume.2))) ;;
      (* Track analytics *)
      add_analytics current_user.1 resume.1 RESUME_ENHANCE
        [("has_job_description",
          MBool (truthy (er_job_description request)))] ;;
      ret resume
  end.

Definition get_resume_score (resume_id : Z) (current_user : UserObj)
    : Handler ResumeScoreResponse :=
  let* d := get_db in
  match query_resume d resume_id current_user.1 with
  | None => raise_http 404 "Resume not found"
  | Some resume =>
      if negb (truthy_num (score resume.2))
      then
        let* scored :=
          await (ScoreResume (resume_text resume.2) (job_description resume.2))
                (score_resume (resume_text resume.2) (job_description resume.2)) in
        let '(s, f, g) := scored in
        modify_db (with_resumes (alter (set_scoring s f g) resume.1)) ;;
        ret (mkResumeScoreResponse (Some s) (Some f) (Some g))
      else
        ret (mkResumeScoreResponse (score resume.2) (feedback resume.2)
               (learning_suggestions resume.2))
  end.

Definition generate_cover_letter_endpoint (request : CoverLetterRequest)
    (current_user : UserObj) : Handler string :=
  (* Get resume *)
  let* d := get_db in
  match query_resume d (cl_resume_id request) current_user.1 with
  | None => raise_http 404 "Resume not found"
  | Some resume =>
      (* Check subscription *)
      match subscription_type current_user.2 with
      | FREE =>
          raise_http 403
            "Free users cannot generate cover letters. Please upgrade your subscription."
      | _ => ret tt
      end ;;
      (* Generate cover letter *)
      let* letter :=
        await (GenerateCoverLetter (resume_text resume.2)
                 (cl_job_description request) (cl_company_name request)
                 (cl_position request))
              (generate_cover_letter (resume_text resume.2)
                 (cl_job_description request) (cl_company_name request)
                 (cl_position request)) in
      (* Update resume *)
      modify_db (with_resumes (alter (set_cover_letter letter) resume.1)) ;;
      (* Track analytics *)
      add_analytics current_user.1 resume.1 COVER_LETTER_GENERATE
        [("company_name", MStr (cl_company_name request));
         ("position", MStr (cl_position request))] ;;
      ret letter
  end.

Definition list_resumes (current_user : UserObj) : Handler (list ResumeObj) :=
  let* d := get_db in
  ret (newest_first (λ o : ResumeObj, created_at o.2)
         (filter (λ o : ResumeObj, user_id o.2 = current_user.1)
                 (map_to_list (resumes d)))).

Definition get_resume (resume_id : Z) (current_user : UserObj)
    : Handler ResumeObj :=
  let* d := get_db in
  match query_resume d resume_id current_user.1 with
  | None => raise_http 404 "Resume not found"
  | Some resume => ret resume
  end.

Definition delete_resume (resume_id : Z) (current_user : UserObj)
    : Handler string :=
  let* d := get_db in
  match query_resume d resume_id current_user.1 with
  | None => raise_http 404 "Resume not found"
  | Some resume =>
      modify_db (with_resumes (delete resume.1)) ;;
      ret "Resume deleted successfully"
  end.


Definition analyze_resume (request : Request) (current_user : UserObj)
    : Handler string :=
  try_except
    (let* data := request_json request in
     let resume_id := py_get data "resume_id" in
     let* d := get_db in
     match query_resume_json d resume_id current_user.1 with
     | None => raise_http 404 "Resume not found"
     | Some resume =>
         (* Get detailed analysis from Gemini *)
         let* analysis :=
           evaluate (AnalyzeResumeContent (resume_text resume.2)
                       (job_description resume.2))
                    (analyze_resume_content (resume_text resume.2)
                       (job_description resume.2)) in
         (* Track analytics *)
         add_analytics current_user.1 resume.1 RESUME_ANALYZE [] ;;
         ret analysis
     end)
    (λ e, raise_http 500 (exception_str e)).

Definition get_resume_history (current_user : UserObj)
    : Handler (list HistoryItem) :=
  try_except
    (let* d := get_db in
     let history :=
       newest_first an_created_at
         (filter (λ h, an_user_id h = current_user.1
                       ∧ an_action_type h ∈
                           [RESUME_UPLOAD; RESUME_ENHANCE; RESUME_ANALYZE])
                 (analytics d)) in
     ret ((λ h, mkHistoryItem (an_action_type h) (an_created_at h)
                  (an_resume_id h) (an_metadata h)) <$> history))
    (λ e, raise_http 500 (exception_str e)).

Definition validate_developer_code (request : Request) : Handler string :=
  try_except
    (let* data := request_json request in
     let code := py_get data "code" in
     (* Validate code *)
     let* valid := (λ w, (w, is_valid_developer_code code)) in
     (if negb valid
      then raise_http 400 "Invalid developer code"
      else ret tt) ;;
     (* Get user from request *)
     let* current_user := get_current_user_of_request request in
     (* Grant pro access *)
     modify_db (with_users
       (alter (λ u, set_remaining_enhancements (-1)
                      (set_subscription_type PRO u))
              current_user.1)) ;;
     ret "Pro access granted successfully")
    (λ e, raise_http 500 (exception_str e)).

Definition get_download_stats (current_user : UserObj)
    : Handler DownloadStats :=
  try_except
    (let* d := get_db in
     let downloads :=
       filter (λ a, an_user_id a = current_user.1
                    ∧ an_action_type a = RESUME_DOWNLOAD)
              (analytics d) in
     ret (mkDownloadStats
            (Z.of_nat (length downloads))
            (if decide (subscription_type current_user.2 = PRO)
             then -1
             else Z.max 0 (4 - Z.of_nat (length downloads)))
            ((λ a, mkDownloadItem (an_created_at a)
                     (snd <$> head (filter (λ kv : string * MetaValue,
                                               kv.1 = "format")
                                           (an_metadata a)))
                     (an_resume_id a)) <$> downloads)))
    (λ e, raise_http 500 (exception_str e)).

(** ** Calls to the endpoints

    A call to a route of one of the two routers: those of [resume.py], which
    [main.py] includes under [/api/resume], and those of [routers/auth.py].
    No module among the sources includes the router of [routers/auth.py]
    ([main.py] includes the routers of [app/api], of which [resume.py] alone
    is among the sources); its routes are answered here as an application
    that includes it answers them.

    [Depends(...)] resolves the bearer token of the request before the
    handler runs: for the routes of [resume.py] the dependency is the
    [get_current_user] imported from [app/api/auth.py]
    ([api_auth_get_current_user]), for [GET /me] that of [routers/auth.py].

    [GET /history] and [GET /download-tracker] are declared after
    [GET /{resume_id}], which matches their paths first: once the
    dependency has run, the path segment fails to validate as an [int] and
    the framework answers 422 without running any handler. *)
Inductive ApiCall :=
| PostUpload (token : Token) (resume_data : ResumeCreate)
| PostEnhance (token : Token) (request : ResumeEnhanceRequest)
| GetScore (token : Token) (resume_id : Z)
| PostCoverLetter (token : Token) (request : CoverLetterRequest)
| GetList (token : Token)
| GetResume (token : Token) (resume_id : Z)
| DeleteResume (token : Token) (resume_id : Z)
| PostAnalyze (request : Request)
| GetHistory (token : Token)
| PostDeveloperCode (request : Request)
| GetDownloadTracker (token : Token)
| PostSignup (user_data : UserCreate)
| PostSignin (form_data : OAuth2PasswordRequestForm)
| PostSignout
| GetMe (token : Token)
| PostResetPassword (email_ : string).

Definition authenticated {A} (dependency : Handler UserObj)
    (h : UserObj → Handler A) : Handler unit :=
  let* current_user := dependency in
  let* _ := h current_user in
  ret tt.

(** The framework's answer to a path segment that is no [int]. *)
Definition unprocessable_resume_id : Handler ResumeObj :=
  raise_http 422 "resume_id: value is not a valid integer".

Definition anonymous {A} (h : Handler A) : Handler unit :=
  let* _ := h in ret tt.

Definition serve (c : ApiCall) : Handler unit :=
  match c with
  | PostUpload tok resume_data =>
      authenticated (api_auth_get_current_user tok)
        (upload_resume resume_data)
  | PostEnhance tok request =>
      authenticated (api_auth_get_current_user tok)
        (enhance_resume_endpoint request)
  | GetScore tok rid =>
      authenticated (api_auth_get_current_user tok) (get_resume_score rid)
  | PostCoverLetter tok request =>
      authenticated (api_auth_get_current_user tok)
        (generate_cover_letter_endpoint request)
  | GetList tok => authenticated (api_auth_get_current_user tok) list_resumes
  | GetResume tok rid =>
      authenticated (api_auth_get_current_user tok) (get_resume rid)
  | DeleteResume tok rid =>
      authenticated (api_auth_get_current_user tok) (delete_resume rid)
  | PostAnalyze request =>
      authenticated (api_auth_get_current_user (req_token request))
        (analyze_resume request)
  | GetHistory tok =>
      authenticated (api_auth_get_current_user tok)
        (λ _, unprocessable_resume_id)
  | PostDeveloperCode request => anonymous (validate_developer_code request)
  | GetDownloadTracker tok =>
      authenticated (api_auth_get_current_user tok)
        (λ _, unprocessable_resume_id)
  | PostSignup user_data => anonymous (signup user_data)
  | PostSignin form_data => anonymous (signin form_data)
  | PostSignout => anonymous signout
  | GetMe tok => authenticated (get_current_user tok) get_current_user_info
  | PostResetPassword e => anonymous (reset_password e)
  end.

End Backend.

(** ** A reference instance of the collaborators

    Used to run the handlers on concrete worlds: a symbolic JWT library (a
    token is its payload together with the key and algorithm that signed it,
    and decoding checks both and the expiry), a tagging password hash and a
    fixed AI service. *)
Module Ref.

Record token := mkToken {
  tok_payload : gmap string JsonValue;
  tok_key : string;
  tok_alg : string
}.

Definition encode (payload : gmap string JsonValue) (key alg : string) : token :=
  mkToken payload key alg.

Definition decode (t : token) (key : string) (algs : list string) (time : Z)
    : option (gmap string JsonValue) :=
  if decide (tok_key t = key ∧ tok_alg t ∈ algs)
  then match tok_payload t !! "exp" with
       | Some (JNum e) => if e <? time then None else Some (tok_payload t)
       | _ => Some (tok_payload t)
       end
  else None.

Definition hash (pw : string) : string := "bcrypt:" +:+ pw.

Definition verify (pw hashed : string) : bool :=
  String.eqb hashed (hash pw).

Definition key : string := "secret".

Definition scorer (content : string) (jd : option string)
    : Exception + (Z * string * string) :=
  inr (if String.eqb content "" then 0 else 80, "feedback", "suggestions").

Definition writer (content job company position : string)
    : Exception + string :=
  inr ("Dear " +:+ company).

Definition analyst (content : string) (jd : option string)
    : Exception + string :=
  inr "analysis".

Definition valid_code (code : JsonValue) : Exception + bool :=
  inr (bool_decide (code = JStr "letmein")).

Definition str (e : Exception) : string :=
  match e with
  | HTTPError h => detail h
  | OtherError msg => msg
  end.

(** Strings of decimal digits read as numbers. *)
Fixpoint digits (s : string) (acc : Z) : option Z :=
  match s with
  | EmptyString => Some acc
  | String c s' =>
      let n := Z.of_nat (Ascii.nat_of_ascii c) - 48 in
      if (0 <=? n) && (n <=? 9) then digits s' (10 * acc + n) else None
  end.

Definition integer_of_string (s : string) : option Z :=
  if String.eqb s "" then None else digits s 0.

Definition collaborators : Collaborators := {|
  Token := token;
  SECRET_KEY := key;
  jwt_encode := encode;
  jwt_decode := decode;
  pwd_verify := verify;
  pwd_hash := hash;
  default_subscription_type := FREE;
  default_remaining_enhancements := 0;
  score_resume := scorer;
  generate_cover_letter := writer;
  analyze_resume_content := analyst;
  is_valid_developer_code := valid_code;
  db_integer_of_string := integer_of_string;
  exception_str := str
|}.

Definition user (tier : SubscriptionType) (n : Z) : User :=
  mkUser "ann@example.org" (hash "pw") "Ann" (mkSubscription "inactive" "free" None)
         tier n.

Definition resume (owner : string) (s : option Z) : Resume :=
  mkResume owner "text" None None None s
           (if s is Some _ then Some "good" else None)
           (if s is Some _ then Some "learn" else None) None 10.

Definition world (tier : SubscriptionType) (n : Z) (s : option Z) : World :=
  mkWorld (mkDb {["u1" := user tier n]}
                (<[1 := resume "u1" s]> {[2 := resume "u2" (Some 50)]})
                [] [])
          [] [] 1000.

End Ref.

(** Runs of the handlers with the reference collaborators. *)
Section RefRuns.

Local Existing Instance Ref.collaborators.

(** Ann signs in with her password at time 1000. *)
Definition ann_signs_in : World * (Exception + TokenResponse Token) :=
  signin (mkForm "ann@example.org" "pw") (Ref.world PRO (-1) None).

Definition ann_token : Token :=
  Ref.encode (<["exp" := JNum 2800]> {["sub" := JStr "u1"]}) Ref.key ALGORITHM.

(** A resume with nothing in it, which the reference scorer gives 0. *)
Definition blank_world : World :=
  mkWorld (mkDb {["u1" := Ref.user PRO (-1)]}
                {[1 := mkResume "u1" "" None None None None None None None 10]}
                [] [])
          [] [] 1000.

(** The score of resume 1 asked for once, and then once more. *)
Definition scored_once : World :=
  (get_resume_score 1 ("u1", Ref.user PRO (-1)) blank_world).1.

Definition scored_twice : World :=
  (get_resume_score 1 ("u1", Ref.user PRO (-1)) scored_once).1.

End RefRuns.

(** ** Outcomes *)

(** The handler raised an [HTTPException] with status [code] and left the
    world as it was: nothing stored, no call to the AI service, no task
    queued. *)
Definition rejected {A} (code : Z) (w : World)
    (out : World * (Exception + A)) : Prop :=
  out.1 = w ∧ ∃ msg hs, out.2 = inl (HTTPError (mkHTTPException code msg hs)).

(** [o] is a row of the resume table that belongs to [cu]. *)
Definition owned_by (cu : UserObj) (w : World) (o : ResumeObj) : Prop :=
  resumes (db w) !! o.1 = Some o.2 ∧ user_id o.2 = cu.1.


(** The world [enhance_resume_endpoint] leaves behind when it goes through:
    the enhancement queued and the event logged, on top of the user table
    [us]. *)
Definition enhanced_world (request : ResumeEnhanceRequest) (cu : UserObj)
    (resume : ResumeObj) (us : gmap string User) (w : World) : World :=
  mkWorld
    (mkDb us (resumes (db w)) (versions (db w))
       (analytics (db w) ++
          [mkAnalytics cu.1 (Some resume.1) RESUME_ENHANCE
             [("has_job_description",
               MBool (truthy (er_job_description request)))]
             (utcnow w)]))
    (ai_calls w)
    (background_tasks w ++
       [EnhanceResume resume.1
          (py_or (er_job_description request) (job_description resume.2))])
    (utcnow w).

(** The world after a scoring that went through. *)
Definition scored_world (resume : ResumeObj) (s : Z) (f g : string)
    (w : World) : World :=
  mkWorld
    (with_resumes (alter (set_scoring s f g) resume.1) (db w))
    (ai_calls w ++
       [ScoreResume (resume_text resume.2) (job_description resume.2)])
    (background_tasks w) (utcnow w).

(** The exception [signin] raises. *)
Definition incorrect_credentials : Exception :=
  HTTPError (mkHTTPException 401 "Incorrect email or password"
               [("WWW-Authenticate", "Bearer")]).

(** The contract of the JWT library that expiry rests on: a token it encoded
    with an ["exp"] claim is refused, under the same key and algorithm, at
    any time after that claim. *)
Definition jwt_rejects_expired (c : Collaborators) : Prop :=
  ∀ payload key alg e time,
    payload !! "exp" = Some (JNum e) → e < time →
    jwt_decode (jwt_encode payload key alg) key [alg] time = None.

(** For a ONE_TIME user the counter is not negative. *)
Definition counter_ok (u : User) : Prop :=
  subscription_type u = ONE_TIME → 0 ≤ remaining_enhancements u.

(** Every row that satisfied [counter_ok] in [us] and is still there in
    [us'] satisfies it there. *)
Definition counters_kept (us us' : gmap string User) : Prop :=
  ∀ uid u u', us !! uid = Some u → counter_ok u → us' !! uid = Some u' →
              counter_ok u'.

(** ** Contracts and shorthands for the further properties *)

(** The contract of the password context: a password verifies against its
    own hash. *)
Definition hash_verifies (c : Collaborators) : Prop :=
  ∀ pw, pwd_verify pw (pwd_hash pw) = true.

(** The contract of the JWT library on a token it encoded itself: before the
    time of its ["exp"] claim, and under the same key and algorithm, it
    decodes to its payload. *)
Definition jwt_accepts_unexpired (c : Collaborators) : Prop :=
  ∀ payload key alg e time,
    payload !! "exp" = Some (JNum e) → time < e →
    jwt_decode (jwt_encode payload key alg) key [alg] time = Some payload.

(** The row [signup] builds from the form. *)
Definition signed_up_user `{Collaborators} (user_data : UserCreate) : User :=
  mkUser (uc_email user_data) (pwd_hash (uc_password user_data))
         (uc_fullName user_data) (mkSubscription "inactive" "free" None)
         default_subscription_type default_remaining_enhancements.

(** The row [upload_resume] builds from the request. *)
Definition uploaded_resume (resume_data : ResumeCreate) (cu : UserObj)
    (t : Z) : Resume :=
  mkResume cu.1 (rc_content resume_data) (rc_job_description resume_data)
           (rc_linkedin_url resume_data) None None None None None t.

(** The world [upload_resume] leaves behind when it goes through: the new
    row under the id [rid], its first version, the event, and the LinkedIn
    task when a URL was given. *)
Definition uploaded_world (resume_data : ResumeCreate) (cu : UserObj)
    (rid : Z) (w : World) : World :=
  mkWorld
    (mkDb (users (db w))
       (<[rid := uploaded_resume resume_data cu (utcnow w)]> (resumes (db w)))
       (versions (db w) ++ [mkResumeVersion rid (rc_content resume_data) 1])
       (analytics (db w) ++
          [mkAnalytics cu.1 (Some rid) RESUME_UPLOAD
             [("has_job_description",
               MBool (truthy (rc_job_description resume_data)));
              ("has_linkedin", MBool (truthy (rc_linkedin_url resume_data)))]
             (utcnow w)]))
    (ai_calls w)
    (background_tasks w ++
       (if truthy (rc_linkedin_url resume_data)
        then [ExtractLinkedinProfile
                (default "" (rc_linkedin_url resume_data)) rid]
        else []))
    (utcnow w).

(** The tiers [upload_resume] and [enhance_resume_endpoint] let through. *)
Definition entitled (u : User) : Prop :=
  subscription_type u = PRO
  ∨ (subscription_type u = ONE_TIME ∧ 0 < remaining_enhancements u).

(** Which endpoint awaits which function of the AI service. *)
Definition may_call `{Collaborators} (c : ApiCall) (call : AiCall) : Prop :=
  match c, call with
  | GetScore _ _, ScoreResume _ _ => True
  | PostCoverLetter _ _, GenerateCoverLetter _ _ _ _ => True
  | PostAnalyze _, AnalyzeResumeContent _ _ => True
  | _, _ => False
  end.

(** Which endpoint queues which background task. *)
Definition may_queue `{Collaborators} (c : ApiCall) (t : BackgroundTask)
    : Prop :=
  match c, t with
  | PostUpload _ _, ExtractLinkedinProfile _ _ => True
  | PostEnhance _ _, EnhanceResume _ _ => True
  | _, _ => False
  end.

(** [k] enhancement requests in a row by the user [uid], each served with
    the user row as it is stored by then (the row [get_current_user] would
    load): the world after the last one and how many went through. *)
Fixpoint enhance_repeatedly (k : nat) (request : ResumeEnhanceRequest)
    (uid : string) (w : World) : World * nat :=
  match k with
  | O => (w, O)
  | S k' =>
      match users (db w) !! uid with
      | None => (w, O)
      | Some u =>
          let out := enhance_resume_endpoint request (uid, u) w in
          let rest := enhance_repeatedly k' request uid out.1 in
          (rest.1, if out.2 is inr _ then S rest.2 else rest.2)
      end
  end.

(** The module as it stands: evaluating either of the two names it does not
    bind raises [NameError]. *)
Definition names_unbound (c : Collaborators) : Prop :=
  (∀ content jd,
     analyze_resume_content content jd
     = inl (name_error "analyze_resume_content"))
  ∧ (∀ code,
       is_valid_developer_code code
       = inl (name_error "is_valid_developer_code")).

(** The reference collaborators with the two names unbound. *)
Definition as_it_stands : Collaborators := {|
  Token := Ref.token;
  SECRET_KEY := Ref.key;
  jwt_encode := Ref.encode;
  jwt_decode := Ref.decode;
  pwd_verify := Ref.verify;
  pwd_hash := Ref.hash;
  default_subscription_type := FREE;
  default_remaining_enhancements := 0;
  score_resume := Ref.scorer;
  generate_cover_letter := Ref.writer;
  analyze_resume_content := λ _ _, inl (name_error "analyze_resume_content");
  is_valid_developer_code := λ _, inl (name_error "is_valid_developer_code");
  db_integer_of_string := Ref.integer_of_string;
  exception_str := Ref.str
|}.

(** The reference collaborators with the AI service out of order. *)
Definition ai_down : Collaborators := {|
  Token := Ref.token;
  SECRET_KEY := Ref.key;
  jwt_encode := Ref.encode;
  jwt_decode := Ref.decode;
  pwd_verify := Ref.verify;
  pwd_hash := Ref.hash;
  default_subscription_type := FREE;
  default_remaining_enhancements := 0;
  score_resume := λ _ _, inl (OtherError "unavailable");
  generate_cover_letter := λ _ _ _ _, inl (OtherError "unavailable");
  analyze_resume_content := λ _ _, inl (OtherError "unavailable");
  is_valid_developer_code := Ref.valid_code;
  db_integer_of_string := Ref.integer_of_string;
  exception_str := Ref.str
|}.

(** Sample data for the runs below: Ann on the PRO tier, Ann on the
    ONE_TIME tier with three enhancements left, a token for Ann signed
    under a key that is not the server's, Bob's sign-up form and a resume to
    upload. *)
Definition pro_ann : UserObj := ("u1", Ref.user PRO (-1)).
Definition pro_world : World := Ref.world PRO (-1) None.
Definition one_time_ann : UserObj := ("u1", Ref.user ONE_TIME 3).
Definition one_time_world : World := Ref.world ONE_TIME 3 None.
Definition forged_token : @Token Ref.collaborators :=
  Ref.encode {["sub" := JStr "u1"]} "other" ALGORITHM.
Definition bob : UserCreate := mkUserCreate "bob@example.org" "hunter2" "Bob".
Definition cv : ResumeCreate :=
  mkResumeCreate "cv" (Some "engineer") (Some "https://linkedin.example/ann").

(** * Properties *)

Ltac run :=
  repeat (cbn [fst snd negb] in * ||
          unfold bind, ret, raise, raise_http, get_db, now, modify_db,
                 add_task, add_analytics, add_version, add_resume, await,
                 try_except, request_json in *).

Lemma rejected_intro {A} code w msg hs :
  @rejected A code w (w, inl (HTTPError (mkHTTPException code msg hs))).
Proof. split; [done | by exists msg, hs]. Qed.

Lemma rejected_status {A} code w (out : World * (Exception + A)) :
  rejected code w out → response_status out.2 = code.
Proof. intros [_ (msg & hs & ->)]. done. Qed.

Lemma Ref_decode_expired : jwt_rejects_expired Ref.collaborators.
Proof.
  intros payload key alg e time Hexp Hlt. cbn. unfold Ref.decode, Ref.encode.
  cbn. rewrite decide_True by (split; [done | set_solver]).
  rewrite Hexp. destruct (Z.ltb_spec e time); [done | lia].
Qed.

(** ** The subscription gate *)

Section Gate.

Context {collaborators : Collaborators}.

Lemma upload_resume_free data cu w :
  subscription_type cu.2 = FREE → rejected 403 w (upload_resume data cu w).
Proof.
  intros Hfree. unfold upload_resume. rewrite Hfree. run.
  apply rejected_intro.
Qed.

Lemma enhance_resume_free request cu w :
  subscription_type cu.2 = FREE →
  match query_resume (db w) (er_resume_id request) cu.1 with
  | Some _ => rejected 403 w (enhance_resume_endpoint request cu w)
  | None => rejected 404 w (enhance_resume_endpoint request cu w)
  end.
Proof.
  intros Hfree. unfold enhance_resume_endpoint. run.
  destruct (query_resume _ _ _) as [resume|]; run.
  - rewrite Hfree. run. apply rejected_intro.
  - apply rejected_intro.
Qed.

Lemma cover_letter_free request cu w :
  subscription_type cu.2 = FREE →
  match query_resume (db w) (cl_resume_id request) cu.1 with
  | Some _ => rejected 403 w (generate_cover_letter_endpoint request cu w)
  | None => rejected 404 w (generate_cover_letter_endpoint request cu w)
  end.
Proof.
  intros Hfree. unfold generate_cover_letter_endpoint. run.
  destruct (query_resume _ _ _) as [resume|]; run.
  - rewrite Hfree. run. apply rejected_intro.
  - apply rejected_intro.
Qed.

(** C1 (as amended): a FREE user is turned away by [upload_resume],
    [enhance_resume_endpoint] and [generate_cover_letter_endpoint] before
    the paid action: the world is left as it was (no resume row, no queued
    enhancement, no call to the AI service). [upload_resume] answers 403;
    the other two answer 403 when the resume is the caller's and 404 when
    the caller has no resume with that id. *)
Theorem free_tier_is_rejected (cu : UserObj) (w : World) :
  subscription_type cu.2 = FREE →
  (∀ data, rejected 403 w (upload_resume data cu w))
  ∧ (∀ request,
       is_Some (query_resume (db w) (er_resume_id request) cu.1) →
       rejected 403 w (enhance_resume_endpoint request cu w))
  ∧ (∀ request,
       query_resume (db w) (er_resume_id request) cu.1 = None →
       rejected 404 w (enhance_resume_endpoint request cu w))
  ∧ (∀ request,
       is_Some (query_resume (db w) (cl_resume_id request) cu.1) →
       rejected 403 w (generate_cover_letter_endpoint request cu w))
  ∧ (∀ request,
       query_resume (db w) (cl_resume_id request) cu.1 = None →
       rejected 404 w (generate_cover_letter_endpoint request cu w)).
Proof.
  intros Hfree. split; [|split; [|split; [|split]]].
  - intros data. by apply upload_resume_free.
  - intros request [r Hr].
    pose proof (enhance_resume_free request cu w Hfree) as H.
    rewrite Hr in H. apply H.
  - intros request Hr.
    pose proof (enhance_resume_free request cu w Hfree) as H.
    rewrite Hr in H. apply H.
  - intros request [r Hr].
    pose proof (cover_letter_free request cu w Hfree) as H.
    rewrite Hr in H. apply H.
  - intros request Hr.
    pose proof (cover_letter_free request cu w Hfree) as H.
    rewrite Hr in H. apply H.
Qed.

End Gate.

Section GateExamples.

Local Existing Instance Ref.collaborators.

(** The gate at work: user [u1] on the FREE tier, who owns resume 1 and
    not resume 2. *)
Lemma free_tier_is_rejected_witness :
  subscription_type (Ref.user FREE 0) = FREE
  ∧ rejected 403 (Ref.world FREE 0 None)
      (upload_resume (mkResumeCreate "cv" None None) ("u1", Ref.user FREE 0)
         (Ref.world FREE 0 None))
  ∧ rejected 403 (Ref.world FREE 0 None)
      (enhance_resume_endpoint (mkResumeEnhanceRequest 1 None)
         ("u1", Ref.user FREE 0) (Ref.world FREE 0 None))
  ∧ rejected 404 (Ref.world FREE 0 None)
      (generate_cover_letter_endpoint
         (mkCoverLetterRequest 2 "job" "ACME" "dev")
         ("u1", Ref.user FREE 0) (Ref.world FREE 0 None)).
Proof.
  pose proof (free_tier_is_rejected ("u1", Ref.user FREE 0)
                (Ref.world FREE 0 None) eq_refl)
    as (Hup & Hen & _ & _ & Hcl).
  split; [reflexivity |]. split; [apply Hup |].
  split; [apply Hen; vm_compute; eauto | apply Hcl; vm_compute; reflexivity].
Defined.

(** C1 (as stated) fails twice over. [get_resume_score] has no tier check:
    for the FREE user [u1] and their unscored resume 1 it answers 200 after
    calling the AI scorer and storing the result. And
    [enhance_resume_endpoint] looks the resume up before it looks at the
    tier: for resume 2, which belongs to [u2], the same user gets 404. *)
Lemma free_user_is_scored :
  subscription_type (Ref.user FREE 0) = FREE
  ∧ (get_resume_score 1 ("u1", Ref.user FREE 0) (Ref.world FREE 0 None)).2
    = inr (mkResumeScoreResponse (Some 80) (Some "feedback")
             (Some "suggestions"))
  ∧ ai_calls (get_resume_score 1 ("u1", Ref.user FREE 0)
                (Ref.world FREE 0 None)).1
    = [ScoreResume "text" None]
  ∧ score <$> resumes (db (get_resume_score 1 ("u1", Ref.user FREE 0)
                             (Ref.world FREE 0 None)).1) !! 1
    = Some (Some 80)
  ∧ response_status
      (enhance_resume_endpoint (mkResumeEnhanceRequest 2 None)
         ("u1", Ref.user FREE 0) (Ref.world FREE 0 None)).2
    = 404.
Proof. vm_compute. repeat split. Qed.

End GateExamples.


(** ** The ONE_TIME counter *)

Lemma enhance_one_time_positive request cu w resume :
  subscription_type cu.2 = ONE_TIME →
  query_resume (db w) (er_resume_id request) cu.1 = Some resume →
  0 < remaining_enhancements cu.2 →
  enhance_resume_endpoint request cu w
  = (enhanced_world request cu resume
       (alter (set_remaining_enhancements (remaining_enhancements cu.2 - 1))
              cu.1 (users (db w))) w,
     inr resume).
Proof.
  intros Htier Hq Hpos. unfold enhance_resume_endpoint. run.
  rewrite Hq, Htier.
  destruct (Z.leb_spec (remaining_enhancements cu.2) 0) as [Hle|_]; [lia|].
  run. reflexivity.
Qed.

Lemma enhance_one_time_exhausted request cu w resume :
  subscription_type cu.2 = ONE_TIME →
  query_resume (db w) (er_resume_id request) cu.1 = Some resume →
  remaining_enhancements cu.2 ≤ 0 →
  rejected 403 w (enhance_resume_endpoint request cu w).
Proof.
  intros Htier Hq Hle. unfold enhance_resume_endpoint. run.
  rewrite Hq, Htier.
  destruct (Z.leb_spec (remaining_enhancements cu.2) 0) as [_|Hlt]; [|lia].
  run. apply rejected_intro.
Qed.

Lemma enhance_pro request cu w resume :
  subscription_type cu.2 = PRO →
  query_resume (db w) (er_resume_id request) cu.1 = Some resume →
  enhance_resume_endpoint request cu w
  = (enhanced_world request cu resume (users (db w)) w, inr resume).
Proof.
  intros Htier Hq. unfold enhance_resume_endpoint. run.
  rewrite Hq, Htier. run. reflexivity.
Qed.

(** C2: a ONE_TIME user, stored as a row of the user table, enhances a
    resume of their own. With a positive counter the handler returns the
    resume and the row stored for the caller afterwards has a
    [remaining_enhancements] one lower than before, is still ONE_TIME and
    has its other columns as they were, while every other row of the user
    table is as before; with a counter of zero or less the handler raises
    403 and the world is as before, so the stored counter is the one the
    caller came with. *)
Theorem one_time_counter_decrements_then_blocks
    (request : ResumeEnhanceRequest) (cu : UserObj) (resume : ResumeObj)
    (w : World) :
  subscription_type cu.2 = ONE_TIME →
  users (db w) !! cu.1 = Some cu.2 →
  query_resume (db w) (er_resume_id request) cu.1 = Some resume →
  (0 < remaining_enhancements cu.2 →
     (enhance_resume_endpoint request cu w).2 = inr resume
     ∧ (∃ u',
          users (db (enhance_resume_endpoint request cu w).1) !! cu.1
          = Some u'
          ∧ remaining_enhancements u' = remaining_enhancements cu.2 - 1
          ∧ subscription_type u' = ONE_TIME
          ∧ email u' = email cu.2
          ∧ password u' = password cu.2
          ∧ full_name u' = full_name cu.2
          ∧ subscription u' = subscription cu.2)
     ∧ (∀ uid, uid ≠ cu.1 →
          users (db (enhance_resume_endpoint request cu w).1) !! uid
          = users (db w) !! uid))
  ∧ (remaining_enhancements cu.2 ≤ 0 →
     rejected 403 w (enhance_resume_endpoint request cu w)
     ∧ (∃ u',
          users (db (enhance_resume_endpoint request cu w).1) !! cu.1
          = Some u'
          ∧ remaining_enhancements u' = remaining_enhancements cu.2
          ∧ subscription_type u' = ONE_TIME)).
Proof.
  intros Htier Hrow Hq. split.
  - intros Hpos.
    rewrite (enhance_one_time_positive request cu w resume Htier Hq Hpos).
    split; [reflexivity|]. cbn. split.
    + eexists. rewrite lookup_alter_eq, Hrow. cbn.
      split; [reflexivity|]. by destruct cu as [uid []].
    + intros uid Hne. by rewrite lookup_alter_ne.
  - intros Hle.
    pose proof (enhance_one_time_exhausted request cu w resume Htier Hq Hle)
      as Hrej.
    split; [exact Hrej|]. destruct Hrej as [-> _]. by exists cu.2.
Qed.

(** A ONE_TIME user with two enhancements left spends one of them: the
    stored counter is 1 afterwards. *)
Lemma one_time_counter_decrements_then_blocks_witness :
  (enhance_resume_endpoint (mkResumeEnhanceRequest 1 None)
     ("u1", Ref.user ONE_TIME 2) (Ref.world ONE_TIME 2 None)).2
  = inr (1, Ref.resume "u1" None)
  ∧ ∃ u',
      users (db (enhance_resume_endpoint (mkResumeEnhanceRequest 1 None)
                   ("u1", Ref.user ONE_TIME 2)
                   (Ref.world ONE_TIME 2 None)).1) !! "u1"
      = Some u'
      ∧ remaining_enhancements u' = 1
      ∧ subscription_type u' = ONE_TIME.
Proof.
  destruct (proj1 (one_time_counter_decrements_then_blocks
                     (mkResumeEnhanceRequest 1 None)
                     ("u1", Ref.user ONE_TIME 2)
                     (1, Ref.resume "u1" None) (Ref.world ONE_TIME 2 None)
                     eq_refl eq_refl eq_refl) eq_refl)
    as (Hret & (u' & Hu' & Hn & Ht & _) & _).
  split; [exact Hret|]. exists u'. split; [exact Hu'|]. split; assumption.
Defined.

(** ... and one whose counter is at zero is blocked. *)
Lemma one_time_blocked_at_zero :
  rejected 403 (Ref.world ONE_TIME 0 None)
    (enhance_resume_endpoint (mkResumeEnhanceRequest 1 None)
       ("u1", Ref.user ONE_TIME 0) (Ref.world ONE_TIME 0 None)).
Proof.
  apply (enhance_one_time_exhausted _ _ _ (1, Ref.resume "u1" None));
    vm_compute; congruence.
Qed.

(** ** Upload *)

Lemma upload_resume_users data cu w :
  users (db (upload_resume data cu w).1) = users (db w).
Proof.
  unfold upload_resume. run.
  destruct (subscription_type cu.2); run;
    repeat (match goal with
            | |- context [if ?b then _ else _] => destruct b
            end; run);
    reflexivity.
Qed.

Lemma upload_resume_accepted data cu w :
  subscription_type cu.2 = PRO
  ∨ (subscription_type cu.2 = ONE_TIME ∧ 0 < remaining_enhancements cu.2) →
  (upload_resume data cu w).2
  = inr (fresh (dom (resumes (db w))),
         mkResume cu.1 (rc_content data) (rc_job_description data)
           (rc_linkedin_url data) None None None None None (utcnow w)).
Proof.
  intros [Hpro | [Hone Hpos]]; unfold upload_resume; run.
  - rewrite Hpro. run. by destruct (truthy _).
  - rewrite Hone.
    destruct (Z.leb_spec (remaining_enhancements cu.2) 0) as [Hle|_]; [lia|].
    run. by destruct (truthy _).
Qed.

(** C9: [upload_resume] leaves the user table as it found it, whatever the
    tier and whatever the outcome; so the row of the authenticated user keeps
    its [subscription_type] and its [remaining_enhancements]. For a ONE_TIME
    user the counter is compared with zero and not consumed: with a positive
    counter the upload goes through and the counter is still the same. *)
Theorem upload_leaves_user_row (data : ResumeCreate) (cu : UserObj) (w : World) :
  users (db (upload_resume data cu w).1) = users (db w)
  ∧ (∀ u, users (db w) !! cu.1 = Some u →
       ∃ u', users (db (upload_resume data cu w).1) !! cu.1 = Some u'
             ∧ subscription_type u' = subscription_type u
             ∧ remaining_enhancements u' = remaining_enhancements u)
  ∧ (subscription_type cu.2 = ONE_TIME → 0 < remaining_enhancements cu.2 →
       response_status (upload_resume data cu w).2 = 200).
Proof.
  split; [apply upload_resume_users|]. split.
  - intros u Hu. exists u. by rewrite upload_resume_users.
  - intros Hone Hpos. rewrite upload_resume_accepted; [done|]. by right.
Qed.

(** A ONE_TIME user with one enhancement left uploads a resume and still has
    one enhancement left. *)
Lemma upload_leaves_user_row_witness :
  response_status
    (upload_resume (mkResumeCreate "cv" None (Some "https://linkedin.example/ann"))
       ("u1", Ref.user ONE_TIME 1) (Ref.world ONE_TIME 1 None)).2 = 200
  ∧ users (db (upload_resume
                 (mkResumeCreate "cv" None (Some "https://linkedin.example/ann"))
                 ("u1", Ref.user ONE_TIME 1) (Ref.world ONE_TIME 1 None)).1)
    = users (db (Ref.world ONE_TIME 1 None)).
Proof.
  pose proof (upload_leaves_user_row
                (mkResumeCreate "cv" None (Some "https://linkedin.example/ann"))
                ("u1", Ref.user ONE_TIME 1) (Ref.world ONE_TIME 1 None))
    as (Hsame & _ & Hok).
  split; [apply Hok; [reflexivity | vm_compute; reflexivity] | exact Hsame].
Defined.

(** ** Scoring *)

Section Scoring.

Context {collaborators : Collaborators}.

Lemma get_resume_score_falsy rid cu w resume s f g :
  query_resume (db w) rid cu.1 = Some resume →
  truthy_num (score resume.2) = false →
  score_resume (resume_text resume.2) (job_description resume.2)
    = inr (s, f, g) →
  get_resume_score rid cu w
  = (scored_world resume s f g w,
     inr (mkResumeScoreResponse (Some s) (Some f) (Some g))).
Proof.
  intros Hq Hfalsy Hs. unfold get_resume_score. run.
  rewrite Hq, Hfalsy. cbn. rewrite Hs. reflexivity.
Qed.

Lemma get_resume_score_truthy rid cu w resume :
  query_resume (db w) rid cu.1 = Some resume →
  truthy_num (score resume.2) = true →
  get_resume_score rid cu w
  = (w, inr (mkResumeScoreResponse (score resume.2) (feedback resume.2)
               (learning_suggestions resume.2))).
Proof.
  intros Hq Htruthy. unfold get_resume_score. run.
  rewrite Hq, Htruthy. reflexivity.
Qed.

(** A resume without a score is scored and the result stored on its row. *)
Lemma unscored_resume_is_scored rid cu w resume s f g :
  query_resume (db w) rid cu.1 = Some resume →
  score resume.2 = None →
  score_resume (resume_text resume.2) (job_description resume.2)
    = inr (s, f, g) →
  get_resume_score rid cu w
  = (scored_world resume s f g w,
     inr (mkResumeScoreResponse (Some s) (Some f) (Some g))).
Proof.
  intros Hq Hnone. apply get_resume_score_falsy; [done|]. by rewrite Hnone.
Qed.

(** A resume with a score other than zero is answered from its row. *)
Lemma nonzero_score_is_served_from_row rid cu w resume s :
  query_resume (db w) rid cu.1 = Some resume →
  score resume.2 = Some s → s ≠ 0 →
  get_resume_score rid cu w
  = (w, inr (mkResumeScoreResponse (Some s) (feedback resume.2)
               (learning_suggestions resume.2))).
Proof.
  intros Hq Hs Hnz.
  rewrite (get_resume_score_truthy rid cu w resume Hq).
  - by rewrite Hs.
  - rewrite Hs. cbn. by destruct (Z.eqb_spec s 0).
Qed.

(** C6 (where the code departs from it): the test [not resume.score] also
    holds for a stored score of zero. For such a row the AI scorer is
    called again and the row is overwritten with what it returns, although
    a score is present. *)
Theorem stored_zero_score_is_rescored
    (rid : Z) (cu : UserObj) (w : World) (resume : ResumeObj)
    (s : Z) (f g : string) :
  query_resume (db w) rid cu.1 = Some resume →
  score resume.2 = Some 0 →
  score_resume (resume_text resume.2) (job_description resume.2)
    = inr (s, f, g) →
  ai_calls (get_resume_score rid cu w).1
    = ai_calls w ++
        [ScoreResume (resume_text resume.2) (job_description resume.2)]
  ∧ resumes (db (get_resume_score rid cu w).1) !! resume.1
    = set_scoring s f g <$> resumes (db w) !! resume.1
  ∧ (get_resume_score rid cu w).2
    = inr (mkResumeScoreResponse (Some s) (Some f) (Some g)).
Proof.
  intros Hq Hzero Hs.
  rewrite (get_resume_score_falsy rid cu w resume s f g Hq); [| |done].
  - cbn. by rewrite lookup_alter_eq.
  - by rewrite Hzero.
Qed.

End Scoring.

Section ScoringExamples.

Local Existing Instance Ref.collaborators.

(** Resume 1 of [u1] carries the score 0 with its feedback; a further request
    for the score calls the scorer once more and replaces all three. *)
Lemma stored_zero_score_is_rescored_witness :
  ai_calls (get_resume_score 1 ("u1", Ref.user PRO (-1))
              (Ref.world PRO (-1) (Some 0))).1
    = ai_calls (Ref.world PRO (-1) (Some 0)) ++ [ScoreResume "text" None]
  ∧ resumes (db (get_resume_score 1 ("u1", Ref.user PRO (-1))
                   (Ref.world PRO (-1) (Some 0))).1) !! 1
    = set_scoring 80 "feedback" "suggestions"
        <$> resumes (db (Ref.world PRO (-1) (Some 0))) !! 1
  ∧ (get_resume_score 1 ("u1", Ref.user PRO (-1))
       (Ref.world PRO (-1) (Some 0))).2
    = inr (mkResumeScoreResponse (Some 80) (Some "feedback") (Some "suggestions")).
Proof.
  apply (stored_zero_score_is_rescored 1 ("u1", Ref.user PRO (-1))
           (Ref.world PRO (-1) (Some 0)) (1, Ref.resume "u1" (Some 0))
           80 "feedback" "suggestions");
    vm_compute; reflexivity.
Defined.

(** The state is one the code reaches by itself: the scorer gives the blank
    resume 0, the 0 is stored, and the next request calls the scorer again. *)
Lemma zero_score_reached_and_rescored :
  score <$> resumes (db scored_once) !! 1 = Some (Some 0)
  ∧ ai_calls scored_once = [ScoreResume "" None]
  ∧ ai_calls scored_twice = [ScoreResume "" None; ScoreResume "" None].
Proof. vm_compute. repeat split. Qed.

End ScoringExamples.

(** ** Ownership *)

Lemma query_resume_Some d rid uid o :
  query_resume d rid uid = Some o →
  o.1 = rid ∧ resumes d !! rid = Some o.2 ∧ user_id o.2 = uid.
Proof.
  unfold query_resume. destruct (resumes d !! rid) as [r|]; [|done].
  case_decide; [|done]. intros [= <-]. done.
Qed.

Lemma query_resume_None d rid uid :
  query_resume d rid uid = None ↔
  ∀ r, resumes d !! rid = Some r → user_id r ≠ uid.
Proof.
  unfold query_resume. destruct (resumes d !! rid) as [r|].
  - case_decide; split; try done.
    + intros H'. by destruct (H' r).
    + intros _ r' [= <-]. done.
  - split; [|done]. intros _ r. done.
Qed.

Lemma query_resume_foreign d rid uid r :
  resumes d !! rid = Some r → user_id r ≠ uid → query_resume d rid uid = None.
Proof.
  intros Hr Hne. apply query_resume_None. intros r'. rewrite Hr.
  by intros [= <-].
Qed.


Section Ownership.

Context {collaborators : Collaborators}.











(** What the handlers write stays within the caller's rows. *)
















End Ownership.

Section OwnershipExamples.

Local Existing Instance Ref.collaborators.


End OwnershipExamples.

(** ** Typed errors inside [try ... except Exception] *)

Section BroadExcept.

Context {collaborators : Collaborators}.

(** Whatever happens inside [analyze_resume], the answer is 200 or 500. *)
Lemma analyze_resume_status request cu w :
  response_status (analyze_resume request cu w).2 ∈ [200; 500].
Proof.
  unfold analyze_resume. run.
  destruct (req_json request) as [e|data]; run; [set_solver|].
  destruct (query_resume_json _ _ _) as [o|]; run; [|set_solver].
  unfold evaluate. destruct (analyze_resume_content _ _) as [e|a]; run;
    set_solver.
Qed.

(** ... and likewise inside [validate_developer_code]. *)
Lemma validate_developer_code_status request w :
  response_status (validate_developer_code request w).2 ∈ [200; 500].
Proof.
  unfold validate_developer_code. run.
  destruct (req_json request) as [e|data]; run; [set_solver|].
  destruct (is_valid_developer_code _) as [e|[|]]; run; [set_solver| |set_solver].
  unfold get_current_user_of_request. run. set_solver.
Qed.

(** C3 (where the code departs from it): the 404 of [analyze_resume] and
    the 400 of [validate_developer_code] are raised inside a [try] whose
    [except Exception] catches them, [HTTPException] being an [Exception],
    and raises 500 in their place. A resume that is missing or belongs to
    somebody else, and a developer code that is not valid, are both
    answered with 500 and the text of the exception that was caught. *)
Theorem typed_errors_are_answered_500 :
  (∀ request cu w data,
     req_json request = inr data →
     query_resume_json (db w) (py_get data "resume_id") cu.1 = None →
     analyze_resume request cu w
     = (w, inl (HTTPError (mkHTTPException 500
                  (exception_str
                     (HTTPError (mkHTTPException 404 "Resume not found" [])))
                  []))))
  ∧ (∀ request w data,
       req_json request = inr data →
       is_valid_developer_code (py_get data "code") = inr false →
       validate_developer_code request w
       = (w, inl (HTTPError (mkHTTPException 500
                    (exception_str
                       (HTTPError
                          (mkHTTPException 400 "Invalid developer code" [])))
                    [])))).
Proof.
  split.
  - intros request cu w data Hjson Hq. unfold analyze_resume. run.
    rewrite Hjson. run. rewrite Hq. reflexivity.
  - intros request w data Hjson Hcode. unfold validate_developer_code. run.
    rewrite Hjson. run. rewrite Hcode. reflexivity.
Qed.

End BroadExcept.

Section BroadExceptExamples.

Local Existing Instance Ref.collaborators.

(** [u1] asks for an analysis of resume 2, which belongs to [u2], and
    somebody submits the developer code ["guess"]: both are answered 500. *)
Lemma typed_errors_are_answered_500_witness :
  response_status
    (analyze_resume
       (mkRequest (Ref.encode ∅ Ref.key ALGORITHM)
          (inr {["resume_id" := JNum 2]}))
       ("u1", Ref.user PRO (-1)) (Ref.world PRO (-1) None)).2 = 500
  ∧ response_status
      (validate_developer_code
         (mkRequest (Ref.encode ∅ Ref.key ALGORITHM)
            (inr {["code" := JStr "guess"]}))
         (Ref.world PRO (-1) None)).2 = 500.
Proof.
  pose proof typed_errors_are_answered_500 as [Han Hval].
  split.
  - rewrite (Han _ ("u1", Ref.user PRO (-1)) (Ref.world PRO (-1) None)
               {["resume_id" := JNum 2]}); [reflexivity|reflexivity|].
    vm_compute. reflexivity.
  - rewrite (Hval _ (Ref.world PRO (-1) None) {["code" := JStr "guess"]});
      [reflexivity|reflexivity|]. vm_compute. reflexivity.
Defined.

End BroadExceptExamples.

(** ** Authentication *)

Lemma query_user_by_email_Some d e o :
  query_user_by_email d e = Some o →
  users d !! o.1 = Some o.2 ∧ email o.2 = e.
Proof.
  unfold query_user_by_email. intros Hhead.
  apply head_Some_elem_of, list_elem_of_filter in Hhead as [He Ho].
  destruct o as [uid u]. by apply elem_of_map_to_list in Ho.
Qed.

Lemma query_user_by_email_None d e :
  query_user_by_email d e = None ↔
  ∀ uid u, users d !! uid = Some u → email u ≠ e.
Proof.
  unfold query_user_by_email. rewrite head_None. split.
  - intros Hnil uid u Hu He.
    assert ((uid, u) ∈ filter (λ o : UserObj, email o.2 = e)
                         (map_to_list (users d))) as Hin.
    { apply list_elem_of_filter. split; [done|]. by apply elem_of_map_to_list. }
    rewrite Hnil in Hin. by apply not_elem_of_nil in Hin.
  - intros Hnone.
    destruct (filter _ _) as [|[uid u] l] eqn:Hf; [done|]. exfalso.
    assert ((uid, u) ∈ filter (λ o : UserObj, email o.2 = e)
                         (map_to_list (users d))) as Hin
      by (rewrite Hf; left).
    apply list_elem_of_filter in Hin as [He Hin].
    apply elem_of_map_to_list in Hin. by apply (Hnone uid u).
Qed.

(** When exactly one row has the e-mail, that row is the one found. *)
Lemma query_user_by_email_unique d e uid u :
  users d !! uid = Some u → email u = e →
  (∀ uid' u', users d !! uid' = Some u' → email u' = e → uid' = uid) →
  query_user_by_email d e = Some (uid, u).
Proof.
  intros Hu He Huniq.
  destruct (query_user_by_email d e) as [[uid' u']|] eqn:Hq.
  - apply query_user_by_email_Some in Hq as [Hu' He']. cbn in *.
    pose proof (Huniq uid' u' Hu' He') as ->.
    rewrite Hu in Hu'. by injection Hu' as ->.
  - rewrite query_user_by_email_None in Hq. by destruct (Hq uid u).
Qed.

Section Authentication.

Context {collaborators : Collaborators}.

Lemma create_access_token_minutes data m w :
  0 < m →
  create_access_token data (Some (timedelta_minutes m)) w
  = (w, inr (jwt_encode (<["exp" := JNum (utcnow w + timedelta_minutes m)]> data)
               SECRET_KEY ALGORITHM)).
Proof.
  intros Hm. unfold create_access_token. run.
  destruct (Z.eqb_spec (timedelta_minutes m) 0) as [Hz|_]; [|done].
  unfold timedelta_minutes in Hz. lia.
Qed.

(** [signin], case by case. *)
Lemma signin_unfold form w :
  signin form w
  = (w, match query_user_by_email (db w) (username form) with
        | None => inl incorrect_credentials
        | Some user =>
            if pwd_verify (form_password form) (password user.2)
            then inr (mkTokenResponse
                        (jwt_encode
                           (<["exp" := JNum (utcnow w + timedelta_minutes
                                               ACCESS_TOKEN_EXPIRE_MINUTES)]>
                              {["sub" := JStr user.1]})
                           SECRET_KEY ALGORITHM)
                        "bearer")
            else inl incorrect_credentials
        end).
Proof.
  unfold signin. run.
  destruct (query_user_by_email _ _) as [user|]; [|done].
  unfold verify_password. destruct (pwd_verify _ _); run; [|done].
  rewrite create_access_token_minutes; [done|]. done.
Qed.

(** [get_current_user], case by case, against the user table. *)
Lemma get_current_user_unfold token w :
  get_current_user token w
  = (w, match jwt_decode token SECRET_KEY [ALGORITHM] (utcnow w) with
        | None => inl jwt_attribute_error
        | Some payload =>
            match payload !! "sub" with
            | None | Some JNull => inl jwt_attribute_error
            | Some (JNum _) => inl credentials_exception
            | Some (JStr uid) =>
                match users (db w) !! uid with
                | Some u => inr (uid, u)
                | None => inl credentials_exception
                end
            end
        end).
Proof.
  unfold get_current_user. run.
  destruct (jwt_decode _ _ _ _) as [payload|]; [|done].
  unfold py_get. destruct (payload !! "sub") as [[|z|s]|]; cbn; try done.
  unfold query_user. by destruct (users (db w) !! s).
Qed.

Lemma get_current_user_world token w : (get_current_user token w).1 = w.
Proof. by rewrite get_current_user_unfold. Qed.

(** The user [get_current_user] returns is a row of the user table. *)
Lemma get_current_user_row token w uid u :
  (get_current_user token w).2 = inr (uid, u) → users (db w) !! uid = Some u.
Proof.
  rewrite get_current_user_unfold. cbn [snd].
  destruct (jwt_decode _ _ _ _) as [payload|]; [|done].
  destruct (payload !! "sub") as [[|z|s]|]; try done.
  destruct (users (db w) !! s) eqn:Hrow; [|done].
  by intros [= <- <-].
Qed.

(** The dependency of the handlers of [resume.py], case by case. *)
Lemma api_auth_get_current_user_unfold token w :
  api_auth_get_current_user token w
  = (w, match jwt_decode token SECRET_KEY [ALGORITHM] (utcnow w) with
        | None => inl credentials_exception
        | Some payload =>
            match payload !! "sub" with
            | Some (JStr uid) =>
                match users (db w) !! uid with
                | Some u => inr (uid, u)
                | None => inl credentials_exception
                end
            | _ => inl credentials_exception
            end
        end).
Proof.
  unfold api_auth_get_current_user. run.
  destruct (jwt_decode _ _ _ _) as [payload|]; [|done].
  unfold py_get. destruct (payload !! "sub") as [[|z|s]|]; cbn; try done.
  unfold query_user. by destruct (users (db w) !! s).
Qed.

Lemma api_auth_get_current_user_world token w :
  (api_auth_get_current_user token w).1 = w.
Proof. by rewrite api_auth_get_current_user_unfold. Qed.

Lemma api_auth_get_current_user_row token w uid u :
  (api_auth_get_current_user token w).2 = inr (uid, u) →
  users (db w) !! uid = Some u.
Proof.
  rewrite api_auth_get_current_user_unfold. cbn [snd].
  destruct (jwt_decode _ _ _ _) as [payload|]; [|done].
  destruct (payload !! "sub") as [[|z|s]|]; try done.
  destruct (users (db w) !! s) eqn:Hrow; [|done].
  by intros [= <- <-].
Qed.

(** C5 (where the code departs from it): [signin] does answer 401 when no
    user row has the e-mail, or when the password does not verify against
    the hash of the row that has it, and 200 otherwise; and
    [get_current_user] does answer 401 for a decoded token whose subject is
    the id of no user row. But for a token that does not decode, and for a
    payload without a ["sub"], what leaves [get_current_user] is not the
    401: the clause [except jwt.JWTError] names an attribute the [jwt]
    module does not have, so the clause itself raises, and the client gets
    500. Neither function changes the world. *)
Theorem jwt_failures_are_answered_500 :
  (∀ form w,
     (signin form w).1 = w
     ∧ ((∀ uid u, users (db w) !! uid = Some u → email u ≠ username form) →
          response_status (signin form w).2 = 401)
     ∧ (∀ uid u,
          users (db w) !! uid = Some u → email u = username form →
          (∀ uid' u', users (db w) !! uid' = Some u' →
                      email u' = username form → uid' = uid) →
          (pwd_verify (form_password form) (password u) = false →
             response_status (signin form w).2 = 401)
          ∧ (pwd_verify (form_password form) (password u) = true →
               response_status (signin form w).2 = 200)))
  ∧ (∀ token w,
       (get_current_user token w).1 = w
       ∧ (jwt_decode token SECRET_KEY [ALGORITHM] (utcnow w) = None →
            (get_current_user token w).2 = inl jwt_attribute_error
            ∧ response_status (get_current_user token w).2 = 500)
       ∧ (∀ payload,
            jwt_decode token SECRET_KEY [ALGORITHM] (utcnow w) = Some payload →
            payload !! "sub" = None ∨ payload !! "sub" = Some JNull →
            (get_current_user token w).2 = inl jwt_attribute_error
            ∧ response_status (get_current_user token w).2 = 500)
       ∧ (∀ payload uid,
            jwt_decode token SECRET_KEY [ALGORITHM] (utcnow w) = Some payload →
            payload !! "sub" = Some (JStr uid) →
            users (db w) !! uid = None →
            (get_current_user token w).2 = inl credentials_exception
            ∧ response_status (get_current_user token w).2 = 401)
       ∧ (∀ payload uid u,
            jwt_decode token SECRET_KEY [ALGORITHM] (utcnow w) = Some payload →
            payload !! "sub" = Some (JStr uid) →
            users (db w) !! uid = Some u →
            (get_current_user token w).2 = inr (uid, u))).
Proof.
  split.
  - intros form w. rewrite signin_unfold. cbn [fst snd].
    split; [done|]. split.
    + intros Hnone.
      apply query_user_by_email_None in Hnone. by rewrite Hnone.
    + intros uid u Hu He Huniq.
      rewrite (query_user_by_email_unique _ _ _ _ Hu He Huniq). cbn.
      split; intros ->; done.
  - intros token w. rewrite get_current_user_unfold. cbn [fst snd].
    split; [done|]. split; [by intros ->|]. split; [|split].
    + intros payload -> [-> | ->]; done.
    + intros payload uid -> -> ->. done.
    + intros payload uid u -> -> ->. done.
Qed.

(** C7 (where the code departs from it): a token [signin] issues at time
    [utcnow w] is the encoding, under [SECRET_KEY], of a payload whose
    ["exp"] is that time plus [ACCESS_TOKEN_EXPIRE_MINUTES] = 30 minutes
    (1800 seconds). Once that time has passed and the JWT library refuses
    the token, [get_current_user] does refuse it too, but not with its 401:
    the refusal of the library reaches [except jwt.JWTError], which raises
    for want of that attribute, and the client gets 500. *)
Theorem expired_access_token_is_answered_500
    (form : OAuth2PasswordRequestForm) (w : World) (resp : TokenResponse Token) :
  jwt_rejects_expired collaborators →
  (signin form w).2 = inr resp →
  timedelta_minutes ACCESS_TOKEN_EXPIRE_MINUTES = 1800
  ∧ ∃ payload,
      access_token resp = jwt_encode payload SECRET_KEY ALGORITHM
      ∧ payload !! "exp" = Some (JNum (utcnow w + 1800))
      ∧ ∀ w', utcnow w + 1800 < utcnow w' →
              get_current_user (access_token resp) w'
              = (w', inl jwt_attribute_error)
              ∧ response_status (get_current_user (access_token resp) w').2
                = 500.
Proof.
  intros Hlib. rewrite signin_unfold. cbn [snd].
  destruct (query_user_by_email _ _) as [user|]; [|done].
  destruct (pwd_verify _ _); [|done].
  intros [= <-]. split; [reflexivity|].
  eexists. split; [reflexivity|]. split.
  - by rewrite lookup_insert_eq.
  - intros w' Hlate. rewrite get_current_user_unfold. cbn [access_token].
    rewrite (Hlib _ _ _ (utcnow w + 1800) (utcnow w')); [done| |done].
    by rewrite lookup_insert_eq.
Qed.

(** The two answers of [reset_password] are one and the same. *)
Lemma reset_password_unfold email_ w :
  reset_password email_ w = (w, inr reset_message).
Proof.
  unfold reset_password, create_access_token. run.
  destruct (query_user_by_email _ _) as [user|]; [|done].
  run. reflexivity.
Qed.

(** C8: [reset_password] returns the one message, and leaves the world as it
    was, whether or not a user row has the e-mail; so the responses of two
    runs, in any two worlds and for any two e-mails, are equal. *)
Theorem reset_password_is_uniform :
  ∀ (email1 email2 : string) (w1 w2 : World),
    (reset_password email1 w1).2 = inr reset_message
    ∧ (reset_password email1 w1).2 = (reset_password email2 w2).2
    ∧ (reset_password email1 w1).1 = w1
    ∧ reset_message
      = "If an account exists with this email, you will receive password reset instructions".
Proof.
  intros email1 email2 w1 w2. by rewrite !reset_password_unfold.
Qed.

End Authentication.

Section AuthenticationExamples.

Local Existing Instance Ref.collaborators.

(** A wrong password and an unknown e-mail are answered 401 and the right
    password 200; a token signed with another key, which does not decode,
    is answered 500. *)
Lemma jwt_failures_are_answered_500_witness :
  response_status
    (signin (mkForm "ann@example.org" "guess") (Ref.world PRO (-1) None)).2
  = 401
  ∧ response_status
      (signin (mkForm "bob@example.org" "pw") (Ref.world PRO (-1) None)).2
    = 401
  ∧ response_status ann_signs_in.2 = 200
  ∧ (get_current_user forged_token (Ref.world PRO (-1) None)).2
    = inl jwt_attribute_error
  ∧ response_status
      (get_current_user forged_token (Ref.world PRO (-1) None)).2
    = 500.
Proof.
  pose proof jwt_failures_are_answered_500 as [Hin Hcur].
  assert (∀ uid' u',
            users (db (Ref.world PRO (-1) None)) !! uid' = Some u' →
            uid' = "u1" ∧ u' = Ref.user PRO (-1)) as Honly.
  { intros uid' u'. cbn. rewrite lookup_singleton.
    case_decide; [|done]. intros [= <-]. done. }
  assert (users (db (Ref.world PRO (-1) None)) !! "u1"
          = Some (Ref.user PRO (-1))) as Hann by (vm_compute; reflexivity).
  split; [|split; [|split]].
  - destruct (Hin (mkForm "ann@example.org" "guess") (Ref.world PRO (-1) None))
      as (_ & _ & Hrow).
    apply (Hrow "u1" (Ref.user PRO (-1)) Hann eq_refl).
    + intros uid' u' Hu' _. by destruct (Honly _ _ Hu').
    + vm_compute. reflexivity.
  - destruct (Hin (mkForm "bob@example.org" "pw") (Ref.world PRO (-1) None))
      as (_ & Hnone & _).
    apply Hnone. intros uid u Hu. apply Honly in Hu as [_ ->].
    vm_compute. discriminate.
  - destruct (Hin (mkForm "ann@example.org" "pw") (Ref.world PRO (-1) None))
      as (_ & _ & Hrow).
    apply (Hrow "u1" (Ref.user PRO (-1)) Hann eq_refl).
    + intros uid' u' Hu' _. by destruct (Honly _ _ Hu').
    + vm_compute. reflexivity.
  - destruct (Hcur forged_token (Ref.world PRO (-1) None))
      as (_ & Hfail & _).
    apply Hfail. vm_compute. reflexivity.
Defined.

(** Ann's token carries the expiry 1000 + 1800; from 2801 on it is answered
    500. *)
Lemma expired_access_token_is_answered_500_witness :
  ann_signs_in.2 = inr (mkTokenResponse ann_token "bearer")
  ∧ timedelta_minutes ACCESS_TOKEN_EXPIRE_MINUTES = 1800
  ∧ ∃ payload,
      ann_token = jwt_encode payload SECRET_KEY ALGORITHM
      ∧ payload !! "exp" = Some (JNum (1000 + 1800))
      ∧ ∀ w', 1000 + 1800 < utcnow w' →
              get_current_user ann_token w' = (w', inl jwt_attribute_error)
              ∧ response_status (get_current_user ann_token w').2 = 500.
Proof.
  split; [vm_compute; reflexivity|].
  apply (expired_access_token_is_answered_500
           (mkForm "ann@example.org" "pw") (Ref.world PRO (-1) None)
           (mkTokenResponse ann_token "bearer") Ref_decode_expired).
  vm_compute. reflexivity.
Defined.

(** Within the window the same token resolves to Ann's row; a second after,
    the answer is 500. *)
Lemma ann_token_within_window :
  (get_current_user ann_token
     (mkWorld (db (Ref.world PRO (-1) None)) [] [] 2800)).2
  = inr ("u1", Ref.user PRO (-1))
  ∧ response_status
      (get_current_user ann_token
         (mkWorld (db (Ref.world PRO (-1) None)) [] [] 2801)).2
    = 500.
Proof. vm_compute. split; reflexivity. Qed.

End AuthenticationExamples.

(** Both dependencies only read. *)
Ltac dependency_reads :=
  first [apply api_auth_get_current_user_world | apply get_current_user_world].

(** ** The counter of a ONE_TIME user is never negative *)

Lemma counters_kept_refl us : counters_kept us us.
Proof. intros uid u u' Hu Hok Hu'. rewrite Hu in Hu'. by injection Hu' as <-. Qed.

Lemma counters_kept_eq us us' : us' = us → counters_kept us us'.
Proof. intros ->. apply counters_kept_refl. Qed.

Lemma counters_kept_alter (f : User → User) k us :
  (∀ u, counter_ok u → counter_ok (f u)) → counters_kept us (alter f k us).
Proof.
  intros Hf uid u u' Hu Hok. destruct (decide (k = uid)) as [->|Hne].
  - rewrite lookup_alter_eq, Hu. intros [= <-]. by apply Hf.
  - rewrite lookup_alter_ne by done. rewrite Hu. by intros [= <-].
Qed.

Lemma counters_kept_insert_fresh k v us :
  us !! k = None → counters_kept us (<[k := v]> us).
Proof.
  intros Hk uid u u' Hu Hok. destruct (decide (k = uid)) as [->|Hne].
  - congruence.
  - rewrite lookup_insert_ne by done. rewrite Hu. by intros [= <-].
Qed.

Section Counter.

Context {collaborators : Collaborators}.

(** [enhance_resume_endpoint]: the only write to the counter, made after the
    test that it is positive. *)
Lemma enhance_counters_kept request cu w :
  counters_kept (users (db w))
    (users (db (enhance_resume_endpoint request cu w).1)).
Proof.
  unfold enhance_resume_endpoint. run.
  destruct (query_resume _ _ _) as [resume|]; run;
    [|apply counters_kept_refl].
  destruct (subscription_type cu.2); run; try apply counters_kept_refl.
  destruct (Z.leb_spec (remaining_enhancements cu.2) 0) as [Hle|Hpos]; run;
    [apply counters_kept_refl|].
  cbn. apply counters_kept_alter. intros u _ _. cbn. lia.
Qed.

(** [validate_developer_code] never gets as far as its write. *)
Lemma validate_developer_code_world request w :
  (validate_developer_code request w).1 = w.
Proof.
  unfold validate_developer_code, get_current_user_of_request. run.
  destruct (req_json request) as [e|data]; run; [done|].
  by destruct (is_valid_developer_code _) as [e|[|]].
Qed.

(** [validate_developer_code]: a row it writes is PRO with the counter -1. *)
Lemma validate_developer_code_users request w :
  users (db (validate_developer_code request w).1) = users (db w)
  ∨ ∃ uid,
      users (db (validate_developer_code request w).1)
      = alter (λ u, set_remaining_enhancements (-1)
                      (set_subscription_type PRO u)) uid (users (db w)).
Proof. left. by rewrite validate_developer_code_world. Qed.

Lemma validate_counters_kept request w :
  counters_kept (users (db w))
    (users (db (validate_developer_code request w).1)).
Proof.
  destruct (validate_developer_code_users request w) as [->|[uid ->]].
  - apply counters_kept_refl.
  - apply counters_kept_alter. intros u _. by intros [=].
Qed.

Lemma signup_counters_kept user_data w :
  counters_kept (users (db w)) (users (db (signup user_data w).1)).
Proof.
  unfold signup. run.
  destruct (query_user_by_email _ _); run; [apply counters_kept_refl|].
  cbn. apply counters_kept_insert_fresh.
  apply not_elem_of_dom, is_fresh.
Qed.

Lemma score_users rid cu w :
  users (db (get_resume_score rid cu w).1) = users (db w).
Proof.
  unfold get_resume_score. run.
  destruct (query_resume _ _ _) as [o|]; [|done].
  destruct (negb _); run; [|done].
  by destruct (score_resume _ _) as [e|[[s f] g]].
Qed.

Lemma cover_letter_users request cu w :
  users (db (generate_cover_letter_endpoint request cu w).1) = users (db w).
Proof.
  unfold generate_cover_letter_endpoint. run.
  destruct (query_resume _ _ _) as [o|]; [|done].
  destruct (subscription_type cu.2); run; try done;
    by destruct (generate_cover_letter _ _ _ _).
Qed.

Lemma delete_users rid cu w :
  users (db (delete_resume rid cu w).1) = users (db w).
Proof.
  unfold delete_resume. run. by destruct (query_resume _ _ _).
Qed.

Lemma analyze_users request cu w :
  users (db (analyze_resume request cu w).1) = users (db w).
Proof.
  unfold analyze_resume. run.
  destruct (req_json request) as [e|data]; run; [done|].
  destruct (query_resume_json _ _ _) as [o|]; run; [|done].
  unfold evaluate. by destruct (analyze_resume_content _ _).
Qed.

(** What [Depends(...)] adds, for a dependency that only reads: the handler
    runs, for the user the token resolves to, in the world of the request,
    or not at all. *)
Lemma authenticated_world {A} dependency (h : UserObj → Handler A) w :
  (dependency w).1 = w →
  (authenticated dependency h w).1 = w
  ∨ ∃ cu, (authenticated dependency h w).1 = (h cu w).1.
Proof.
  unfold authenticated. run.
  destruct (dependency w) as [w' [e|cu]]; cbn; intros ->.
  - by left.
  - right. exists cu. by destruct (h cu w) as [w' [e|a]].
Qed.

Lemma anonymous_world {A} (h : Handler A) w : (anonymous h w).1 = (h w).1.
Proof. unfold anonymous. run. by destruct (h w) as [w' [e|a]]. Qed.

Lemma authenticated_counters_kept {A} dependency
    (h : UserObj → Handler A) w :
  (dependency w).1 = w →
  (∀ cu, counters_kept (users (db w)) (users (db (h cu w).1))) →
  counters_kept (users (db w)) (users (db (authenticated dependency h w).1)).
Proof.
  intros Hdep Hh.
  destruct (authenticated_world dependency h w Hdep) as [->|[cu ->]].
  - apply counters_kept_refl.
  - apply Hh.
Qed.

Lemma serve_counters_kept c w :
  counters_kept (users (db w)) (users (db (serve c w).1)).
Proof.
  destruct c; cbn [serve];
    try (apply authenticated_counters_kept; [dependency_reads | intros cu]);
    try rewrite anonymous_world.
  - apply counters_kept_eq, upload_resume_users.
  - apply enhance_counters_kept.
  - apply counters_kept_eq, score_users.
  - apply counters_kept_eq, cover_letter_users.
  - apply counters_kept_refl.
  - apply counters_kept_eq. unfold get_resume. run.
    by destruct (query_resume _ _ _).
  - apply counters_kept_eq, delete_users.
  - apply counters_kept_eq, analyze_users.
  - apply counters_kept_refl.
  - apply validate_counters_kept.
  - apply counters_kept_refl.
  - apply signup_counters_kept.
  - rewrite signin_unfold. apply counters_kept_refl.
  - apply counters_kept_refl.
  - apply counters_kept_refl.
  - rewrite reset_password_unfold. apply counters_kept_refl.
Qed.

(** C10: whatever endpoint serves whatever call, a user row that satisfied
    "ONE_TIME implies [remaining_enhancements >= 0]" before the call
    satisfies it after the call. On the way: [enhance_resume_endpoint]
    writes the counter only after finding it positive, [upload_resume]
    writes no user row, and a row [validate_developer_code] has written is
    PRO with the counter -1. *)
Theorem one_time_counter_stays_nonnegative :
  (∀ (c : ApiCall) (w : World) (uid : string) (u u' : User),
     users (db w) !! uid = Some u → counter_ok u →
     users (db (serve c w).1) !! uid = Some u' → counter_ok u')
  ∧ (∀ request cu w uid u u',
       users (db w) !! uid = Some u →
       users (db (enhance_resume_endpoint request cu w).1) !! uid = Some u' →
       u' = u
       ∨ (0 < remaining_enhancements cu.2
          ∧ u' = set_remaining_enhancements
                   (remaining_enhancements cu.2 - 1) u))
  ∧ (∀ data cu w,
       users (db (upload_resume data cu w).1) = users (db w))
  ∧ (∀ request w uid u u',
       users (db w) !! uid = Some u →
       users (db (validate_developer_code request w).1) !! uid = Some u' →
       u' = u
       ∨ (subscription_type u' = PRO ∧ remaining_enhancements u' = -1)).
Proof.
  split; [|split; [|split]].
  - intros c w uid u u' Hu Hok Hu'.
    exact (serve_counters_kept c w uid u u' Hu Hok Hu').
  - intros request cu w uid u u' Hu. unfold enhance_resume_endpoint. run.
    destruct (query_resume _ _ _) as [resume|]; run;
      [|rewrite Hu; intros [= <-]; by left].
    destruct (subscription_type cu.2); run;
      try (cbn; rewrite Hu; intros [= <-]; by left).
    destruct (Z.leb_spec (remaining_enhancements cu.2) 0) as [Hle|Hpos]; run;
      [cbn; rewrite Hu; intros [= <-]; by left|].
    cbn. destruct (decide (cu.1 = uid)) as [<-|Hne].
    + rewrite lookup_alter_eq, Hu. intros [= <-]. by right.
    + rewrite lookup_alter_ne by done. rewrite Hu. intros [= <-]. by left.
  - intros data cu w. apply upload_resume_users.
  - intros request w uid u u' Hu.
    destruct (validate_developer_code_users request w) as [->|[k ->]].
    + rewrite Hu. intros [= <-]. by left.
    + destruct (decide (k = uid)) as [<-|Hne].
      * rewrite lookup_alter_eq, Hu. intros [= <-]. by right.
      * rewrite lookup_alter_ne by done. rewrite Hu. intros [= <-]. by left.
Qed.

End Counter.

Section CounterExamples.

Local Existing Instance Ref.collaborators.

(** Ann, ONE_TIME with one enhancement left, enhances resume 1 and is left
    with none; asked again, the endpoint refuses and the counter stays 0. *)
Lemma one_time_counter_stays_nonnegative_witness :
  counter_ok (Ref.user ONE_TIME 1)
  ∧ users (db (serve (PostEnhance ann_token (mkResumeEnhanceRequest 1 None))
                 (Ref.world ONE_TIME 1 None)).1) !! "u1"
    = Some (Ref.user ONE_TIME 0)
  ∧ counter_ok (Ref.user ONE_TIME 0).
Proof.
  assert (users (db (Ref.world ONE_TIME 1 None)) !! "u1"
          = Some (Ref.user ONE_TIME 1)) as Hbefore
    by (vm_compute; reflexivity).
  assert (users (db (serve (PostEnhance ann_token
                              (mkResumeEnhanceRequest 1 None))
                       (Ref.world ONE_TIME 1 None)).1) !! "u1"
          = Some (Ref.user ONE_TIME 0)) as Hafter
    by (vm_compute; reflexivity).
  assert (counter_ok (Ref.user ONE_TIME 1)) as Hok by (intros _; cbn; lia).
  split; [exact Hok|]. split; [exact Hafter|].
  exact (proj1 one_time_counter_stays_nonnegative _ _ _ _ _
           Hbefore Hok Hafter).
Defined.

(** The developer code, even the one the helper accepts, leaves a ONE_TIME
    user as they were. *)
Lemma developer_code_grants_nothing :
  users (db (serve (PostDeveloperCode
                      (mkRequest ann_token (inr {["code" := JStr "letmein"]})))
               (Ref.world ONE_TIME 1 None)).1) !! "u1"
  = Some (Ref.user ONE_TIME 1).
Proof. vm_compute. reflexivity. Qed.

End CounterExamples.

(** * Further properties *)

(** ** Accounts *)

Section Accounts.

Context {collaborators : Collaborators}.

Lemma signup_taken user_data w :
  is_Some (query_user_by_email (db w) (uc_email user_data)) →
  rejected 400 w (signup user_data w).
Proof.
  intros [o Ho]. unfold signup. run. rewrite Ho. apply rejected_intro.
Qed.

Lemma signup_free user_data w :
  query_user_by_email (db w) (uc_email user_data) = None →
  signup user_data w
  = (mkWorld (with_users (insert (fresh (dom (users (db w))))
                            (signed_up_user user_data)) (db w))
       (ai_calls w) (background_tasks w) (utcnow w),
     inr (fresh (dom (users (db w))), signed_up_user user_data)).
Proof. intros Hq. unfold signup. run. rewrite Hq. reflexivity. Qed.

Lemma fresh_user_id_unused w : users (db w) !! fresh (dom (users (db w))) = None.
Proof. apply not_elem_of_dom, is_fresh. Qed.

(** After a [signup] that went through, the row found for the e-mail is the
    new one. *)
Lemma signup_then_query user_data w :
  query_user_by_email (db w) (uc_email user_data) = None →
  query_user_by_email (db (signup user_data w).1) (uc_email user_data)
  = Some (fresh (dom (users (db w))), signed_up_user user_data).
Proof.
  intros Hq. rewrite (signup_free _ _ Hq). cbn.
  apply query_user_by_email_unique; cbn.
  - apply lookup_insert_eq.
  - reflexivity.
  - intros uid' u'. rewrite lookup_insert.
    case_decide as Hk; [done|]. intros Hu' He'.
    rewrite query_user_by_email_None in Hq. by destruct (Hq uid' u').
Qed.

(** X1: [signup] with an e-mail some user row already has raises 400 and
    changes nothing. With an e-mail no row has, it stores the row built from
    the form (password hashed) under an id no row had, returns it, and
    leaves every existing row as it was; and a further [signup] with the
    same e-mail, whatever the rest of the form, then raises 400. *)
Theorem signup_registers_an_email_once (user_data : UserCreate) (w : World) :
  (is_Some (query_user_by_email (db w) (uc_email user_data)) →
     rejected 400 w (signup user_data w))
  ∧ (query_user_by_email (db w) (uc_email user_data) = None →
     ∃ uid,
       (signup user_data w).2 = inr (uid, signed_up_user user_data)
       ∧ users (db w) !! uid = None
       ∧ users (db (signup user_data w).1) !! uid
         = Some (signed_up_user user_data)
       ∧ password (signed_up_user user_data)
         = get_password_hash (uc_password user_data)
       ∧ (∀ uid' u', users (db w) !! uid' = Some u' →
            users (db (signup user_data w).1) !! uid' = Some u')
       ∧ (∀ again, uc_email again = uc_email user_data →
            rejected 400 (signup user_data w).1
              (signup again (signup user_data w).1))).
Proof.
  split; [apply signup_taken|]. intros Hq.
  exists (fresh (dom (users (db w)))).
  pose proof (fresh_user_id_unused w) as Hfresh.
  split; [by rewrite signup_free|]. split; [done|].
  split; [rewrite signup_free by done; cbn; apply lookup_insert_eq|].
  split; [done|]. split.
  - intros uid' u' Hu'. rewrite signup_free by done. cbn.
    rewrite lookup_insert_ne; [done|]. congruence.
  - intros again Hsame. apply signup_taken. rewrite Hsame.
    rewrite signup_then_query by done. eauto.
Qed.

(** X2: somebody who has just signed up can sign in. If no row had the
    e-mail, and the password context verifies a password against its own
    hash, then [signin] with the e-mail and password of the form, in the
    world [signup] left, returns a bearer token whose subject is the id of
    the new row and whose expiry is 30 minutes ahead. *)
Theorem signup_then_signin (user_data : UserCreate) (w : World) :
  hash_verifies collaborators →
  query_user_by_email (db w) (uc_email user_data) = None →
  ∃ uid,
    (signup user_data w).2 = inr (uid, signed_up_user user_data)
    ∧ signin (mkForm (uc_email user_data) (uc_password user_data))
        (signup user_data w).1
      = ((signup user_data w).1,
         inr (mkTokenResponse
                (jwt_encode
                   (<["exp" := JNum (utcnow w + 1800)]> {["sub" := JStr uid]})
                   SECRET_KEY ALGORITHM)
                "bearer")).
Proof.
  intros Hhash Hq. exists (fresh (dom (users (db w)))).
  split; [by rewrite signup_free|].
  rewrite signin_unfold. cbn [username form_password].
  rewrite signup_then_query by done. cbn [snd fst password signed_up_user].
  rewrite Hhash. by rewrite signup_free.
Qed.

End Accounts.

Section Tokens.

Context {collaborators : Collaborators}.

(** X3: a token from [signin] names the user who signed in. If the JWT
    library decodes its own unexpired tokens, then in any later world whose
    clock is before the expiry and in which the user row still exists,
    [get_current_user] returns that row, as it is stored then, under the id
    of the row [signin] found for the e-mail. *)
Theorem signin_token_resolves_to_user
    (form : OAuth2PasswordRequestForm) (w : World) (resp : TokenResponse Token) :
  jwt_accepts_unexpired collaborators →
  (signin form w).2 = inr resp →
  ∃ uid u,
    query_user_by_email (db w) (username form) = Some (uid, u)
    ∧ ∀ w' u',
        utcnow w' < utcnow w + 1800 →
        users (db w') !! uid = Some u' →
        get_current_user (access_token resp) w' = (w', inr (uid, u')).
Proof.
  intros Hlib. rewrite signin_unfold. cbn [snd].
  destruct (query_user_by_email _ _) as [[uid u]|]; [|done].
  destruct (pwd_verify _ _); [|done].
  intros [= <-]. exists uid, u. split; [done|].
  intros w' u' Hearly Hrow. rewrite get_current_user_unfold.
  cbn [access_token fst].
  rewrite (Hlib _ _ _ (utcnow w + 1800) (utcnow w'));
    [|by rewrite lookup_insert_eq|done].
  rewrite lookup_insert_ne by done. rewrite lookup_singleton_eq.
  cbn. unfold query_user. by rewrite Hrow.
Qed.

(** X4: the payload [create_access_token] encodes is [data] with ["exp"]
    set, any ["exp"] of [data] being replaced and every other entry kept.
    The expiry is the clock plus [expires_delta] when one is given and is
    not zero, and the clock plus 15 minutes when none is given or when it is
    a zero [timedelta], which Python takes for false. The world is not
    changed. *)
Theorem create_access_token_expiry
    (data : gmap string JsonValue) (expires_delta : option Z) (w : World) :
  ∃ payload,
    create_access_token data expires_delta w
    = (w, inr (jwt_encode payload SECRET_KEY ALGORITHM))
    ∧ (∀ k, k ≠ "exp" → payload !! k = data !! k)
    ∧ (expires_delta = None ∨ expires_delta = Some 0 →
         payload !! "exp" = Some (JNum (utcnow w + 900)))
    ∧ (∀ delta, expires_delta = Some delta → delta ≠ 0 →
         payload !! "exp" = Some (JNum (utcnow w + delta))).
Proof.
  unfold create_access_token. run. eexists. split; [reflexivity|].
  split; [|split].
  - intros k Hk. by rewrite lookup_insert_ne.
  - rewrite lookup_insert_eq. by intros [->| ->].
  - intros delta -> Hnz. rewrite lookup_insert_eq.
    by destruct (Z.eqb_spec delta 0).
Qed.

End Tokens.

(** ** The life of a resume *)

Lemma query_resume_owned d rid uid r :
  resumes d !! rid = Some r → user_id r = uid →
  query_resume d rid uid = Some (rid, r).
Proof.
  intros Hr Hu. unfold query_resume. rewrite Hr. by rewrite decide_True.
Qed.

Lemma fresh_resume_id_unused w :
  resumes (db w) !! fresh (dom (resumes (db w))) = None.
Proof. apply not_elem_of_dom, is_fresh. Qed.

Lemma truthy_spec (o : option string) :
  truthy o = true ↔ ∃ v, o = Some v ∧ v ≠ "".
Proof.
  unfold truthy. destruct o as [v|].
  - destruct (String.eqb_spec v "") as [->|Hne]; cbn; split.
    + done.
    + by intros (v & [= <-] & Hne).
    + eauto.
    + done.
  - split; [done|]. by intros (v & Hv & _).
Qed.

Lemma upload_resume_entitled data cu w :
  entitled cu.2 →
  upload_resume data cu w
  = (uploaded_world data cu (fresh (dom (resumes (db w)))) w,
     inr (fresh (dom (resumes (db w))), uploaded_resume data cu (utcnow w))).
Proof.
  intros [Hpro | [Hone Hpos]]; unfold upload_resume, uploaded_world; run.
  - rewrite Hpro. run. destruct (truthy _); run; cbn;
      by rewrite ?app_nil_r.
  - rewrite Hone.
    destruct (Z.leb_spec (remaining_enhancements cu.2) 0) as [Hle|_]; [lia|].
    run. destruct (truthy _); run; cbn; by rewrite ?app_nil_r.
Qed.

Lemma get_resume_found rid cu w r :
  resumes (db w) !! rid = Some r → user_id r = cu.1 →
  get_resume rid cu w = (w, inr (rid, r)).
Proof.
  intros Hr Hu. unfold get_resume. run.
  by rewrite (query_resume_owned _ _ _ _ Hr Hu).
Qed.

(** [list_resumes] returns exactly the caller's rows. *)
Lemma list_resumes_elem cu w :
  ∃ l, list_resumes cu w = (w, inr l)
       ∧ NoDup l
       ∧ ∀ o, o ∈ l ↔ owned_by cu w o.
Proof.
  unfold list_resumes. run. eexists. split; [reflexivity|]. split.
  - unfold newest_first. rewrite merge_sort_Permutation.
    apply NoDup_filter, NoDup_map_to_list.
  - intros [rid r]. unfold newest_first, owned_by.
    rewrite merge_sort_Permutation, list_elem_of_filter. cbn. split.
    + intros [Hu Hin]. by apply elem_of_map_to_list in Hin.
    + intros [Hin Hu]. split; [done|]. by apply elem_of_map_to_list.
Qed.

(** X5: what an entitled user (PRO, or ONE_TIME with a positive counter)
    uploads is theirs to read. The new row gets an id no row had and carries
    the content, job description and LinkedIn URL of the request and no
    score, enhancement or cover letter; the owner reads it back with
    [get_resume] and finds it in [list_resumes]; any other user gets 404
    for its id; and every row that existed is still there unchanged. *)
Theorem uploaded_resume_is_readable_by_owner
    (data : ResumeCreate) (cu : UserObj) (w : World) :
  entitled cu.2 →
  ∃ rid,
    let row := uploaded_resume data cu (utcnow w) in
    let w' := (upload_resume data cu w).1 in
    (upload_resume data cu w).2 = inr (rid, row)
    ∧ resumes (db w) !! rid = None
    ∧ get_resume rid cu w' = (w', inr (rid, row))
    ∧ (∃ l, list_resumes cu w' = (w', inr l) ∧ (rid, row) ∈ l)
    ∧ (∀ other : UserObj, other.1 ≠ cu.1 →
         rejected 404 w' (get_resume rid other w'))
    ∧ (∀ rid' r', resumes (db w) !! rid' = Some r' →
         resumes (db w') !! rid' = Some r').
Proof.
  intros Hent. exists (fresh (dom (resumes (db w)))).
  pose proof (fresh_resume_id_unused w) as Hfresh.
  cbn zeta. rewrite (upload_resume_entitled _ _ _ Hent). cbn [fst snd].
  assert (resumes (db (uploaded_world data cu (fresh (dom (resumes (db w)))) w))
            !! fresh (dom (resumes (db w)))
          = Some (uploaded_resume data cu (utcnow w))) as Hnew
    by (cbn; apply lookup_insert_eq).
  split; [done|]. split; [done|].
  split; [by apply get_resume_found|]. split; [|split].
  - destruct (list_resumes_elem cu
                (uploaded_world data cu (fresh (dom (resumes (db w)))) w))
      as (l & Hl & _ & Hin).
    exists l. split; [done|]. apply Hin. by split.
  - intros other Hother. unfold get_resume. run.
    rewrite (query_resume_foreign _ _ _ _ Hnew); [apply rejected_intro|].
    cbn. congruence.
  - intros rid' r' Hr'. cbn. rewrite lookup_insert_ne; [done|]. congruence.
Qed.

(** X6: the bookkeeping of an upload that goes through. The handler
    returns a resume object: its id was unused before and its row is the one
    stored under that id afterwards, owned by the caller and holding the
    content of the request. For that same id: one version is appended,
    numbered 1, with the content of the request; one [RESUME_UPLOAD] event
    is appended for the caller and that resume, recording whether a job
    description and a LinkedIn URL were given; the LinkedIn extraction of
    that resume is queued when the URL is a non-empty string, and nothing is
    queued when it is missing or empty; no call is made to the AI
    service. *)
Theorem upload_bookkeeping (data : ResumeCreate) (cu : UserObj) (w : World) :
  entitled cu.2 →
  ∃ rid row event has_job_description has_linkedin,
    let w' := (upload_resume data cu w).1 in
    (upload_resume data cu w).2 = inr (rid, row)
    ∧ resumes (db w) !! rid = None
    ∧ resumes (db w') !! rid = Some row
    ∧ user_id row = cu.1
    ∧ original_content row = rc_content data
    ∧ job_description row = rc_job_description data
    ∧ linkedin_url row = rc_linkedin_url data
    ∧ versions (db w')
      = versions (db w) ++ [mkResumeVersion rid (rc_content data) 1]
    ∧ analytics (db w') = analytics (db w) ++ [event]
    ∧ an_user_id event = cu.1
    ∧ an_resume_id event = Some rid
    ∧ an_action_type event = RESUME_UPLOAD
    ∧ an_metadata event
      = [("has_job_description", MBool has_job_description);
         ("has_linkedin", MBool has_linkedin)]
    ∧ (has_job_description = true
       ↔ ∃ jd, rc_job_description data = Some jd ∧ jd ≠ "")
    ∧ (has_linkedin = true
       ↔ ∃ url, rc_linkedin_url data = Some url ∧ url ≠ "")
    ∧ ai_calls w' = ai_calls w
    ∧ (∀ url, rc_linkedin_url data = Some url → url ≠ "" →
         background_tasks w'
         = background_tasks w ++ [ExtractLinkedinProfile url rid])
    ∧ (rc_linkedin_url data = None ∨ rc_linkedin_url data = Some "" →
         background_tasks w' = background_tasks w).
Proof.
  intros Hent. eexists _, _, _, _, _. cbn zeta.
  rewrite (upload_resume_entitled _ _ _ Hent). cbn [fst snd].
  split; [reflexivity|]. split; [apply fresh_resume_id_unused|].
  split; [cbn; apply lookup_insert_eq|].
  do 4 (split; [reflexivity|]).
  split; [reflexivity|]. split; [reflexivity|].
  do 4 (split; [reflexivity|]).
  split; [apply truthy_spec|]. split; [apply truthy_spec|].
  split; [reflexivity|]. split.
  - intros url Hurl Hne. cbn. rewrite Hurl. cbn.
    destruct (String.eqb_spec url ""); done.
  - intros [Hurl|Hurl]; cbn; rewrite Hurl; cbn; by rewrite app_nil_r.
Qed.

(** X7: a ONE_TIME user whose counter is zero or less cannot upload: 403,
    and nothing is stored or queued. *)
Theorem upload_blocked_without_enhancements
    (data : ResumeCreate) (cu : UserObj) (w : World) :
  subscription_type cu.2 = ONE_TIME →
  remaining_enhancements cu.2 ≤ 0 →
  rejected 403 w (upload_resume data cu w).
Proof.
  intros Hone Hle. unfold upload_resume. rewrite Hone.
  destruct (Z.leb_spec (remaining_enhancements cu.2) 0) as [_|Hlt]; [|lia].
  run. apply rejected_intro.
Qed.

Lemma delete_resume_found rid cu w r :
  resumes (db w) !! rid = Some r → user_id r = cu.1 →
  delete_resume rid cu w
  = (mkWorld (with_resumes (delete rid) (db w)) (ai_calls w)
       (background_tasks w) (utcnow w),
     inr "Resume deleted successfully").
Proof.
  intros Hr Hu. unfold delete_resume. run.
  by rewrite (query_resume_owned _ _ _ _ Hr Hu).
Qed.

(** X8: deleting a resume of one's own removes that row and no other. The
    handler answers with its message; afterwards the id has no row, so
    [get_resume] and a second [delete_resume] for it both raise 404, and
    every other row, the caller's other resumes included, and every user row
    is as before. *)
Theorem deleted_resume_is_gone (rid : Z) (cu : UserObj) (w : World) (r : Resume) :
  resumes (db w) !! rid = Some r → user_id r = cu.1 →
  let w' := (delete_resume rid cu w).1 in
  (delete_resume rid cu w).2 = inr "Resume deleted successfully"
  ∧ resumes (db w') !! rid = None
  ∧ rejected 404 w' (get_resume rid cu w')
  ∧ rejected 404 w' (delete_resume rid cu w')
  ∧ (∀ rid', rid' ≠ rid → resumes (db w') !! rid' = resumes (db w) !! rid')
  ∧ users (db w') = users (db w).
Proof.
  intros Hr Hu. cbn zeta. rewrite (delete_resume_found _ _ _ _ Hr Hu).
  cbn [fst snd].
  assert (∀ uid, query_resume
                   (db (mkWorld (with_resumes (delete rid) (db w)) (ai_calls w)
                          (background_tasks w) (utcnow w))) rid uid = None)
    as Hgone.
  { intros uid. unfold query_resume. cbn. by rewrite lookup_delete_eq. }
  split; [done|]. split; [cbn; apply lookup_delete_eq|].
  split; [unfold get_resume; run; rewrite Hgone; apply rejected_intro|].
  split; [unfold delete_resume; run; rewrite Hgone; apply rejected_intro|].
  split; [|done]. intros rid' Hne. cbn. by rewrite lookup_delete_ne.
Qed.

(** X9: what [enhance_resume_endpoint] does when it returns a resume. It
    returns the row as stored, and changes no resume row and calls no AI
    service itself: the enhancement is one queued task for the resume, with
    the job description of the request when that is a non-empty string and
    the one stored on the resume otherwise. One [RESUME_ENHANCE] event is
    appended. When it raises instead, the world is as before. *)
Theorem enhance_queues_one_task
    (request : ResumeEnhanceRequest) (cu : UserObj) (w : World) :
  let out := enhance_resume_endpoint request cu w in
  (∀ o, out.2 = inr o →
     resumes (db w) !! er_resume_id request = Some o.2
     ∧ o.1 = er_resume_id request
     ∧ resumes (db out.1) = resumes (db w)
     ∧ ai_calls out.1 = ai_calls w
     ∧ background_tasks out.1
       = background_tasks w ++
           [EnhanceResume (er_resume_id request)
              (if truthy (er_job_description request)
               then er_job_description request
               else job_description o.2)]
     ∧ ∃ event, analytics (db out.1) = analytics (db w) ++ [event]
                ∧ an_user_id event = cu.1
                ∧ an_resume_id event = Some (er_resume_id request)
                ∧ an_action_type event = RESUME_ENHANCE)
  ∧ (∀ e, out.2 = inl e → out.1 = w).
Proof.
  cbn zeta. unfold enhance_resume_endpoint. run.
  destruct (query_resume _ _ _) as [[rid r]|] eqn:Hq; run.
  - apply query_resume_Some in Hq as (Hid & Hr & Hu). cbn in Hid, Hr, Hu.
    subst rid.
    destruct (subscription_type cu.2); run.
    + split; [done|]. by intros e [= <-].
    + destruct (_ <=? _); run.
      * split; [done|]. by intros e [= <-].
      * split; [|done]. intros o [= <-]. cbn.
        repeat (split; [done|]). eexists. by split.
    + split; [|done]. intros o [= <-]. cbn.
      repeat (split; [done|]). eexists. by split.
  - split; [done|]. by intros e [= <-].
Qed.

Section Services.

Context {collaborators : Collaborators}.

(** X10: a score other than zero is asked of the AI service once. If the
    caller's resume has no score (or the score 0) and the scorer returns
    [(s, f, g)] with [s] not zero, then the first [get_resume_score] calls
    the scorer and stores the three values, and a second one, in the world
    the first left, answers the same from the row, calls nothing and changes
    nothing. *)
Theorem score_is_computed_once
    (rid : Z) (cu : UserObj) (w : World) (resume : ResumeObj)
    (s : Z) (f g : string) :
  query_resume (db w) rid cu.1 = Some resume →
  truthy_num (score resume.2) = false →
  score_resume (resume_text resume.2) (job_description resume.2)
    = inr (s, f, g) →
  s ≠ 0 →
  let first := get_resume_score rid cu w in
  first.2 = inr (mkResumeScoreResponse (Some s) (Some f) (Some g))
  ∧ ai_calls first.1
    = ai_calls w ++
        [ScoreResume (resume_text resume.2) (job_description resume.2)]
  ∧ resumes (db first.1) !! rid = Some (set_scoring s f g resume.2)
  ∧ get_resume_score rid cu first.1 = (first.1, first.2).
Proof.
  intros Hq Hfalsy Hs Hnz. cbn zeta.
  rewrite (get_resume_score_falsy rid cu w resume s f g Hq Hfalsy Hs).
  cbn [fst snd].
  apply query_resume_Some in Hq as (Hid & Hr & Hu).
  assert (resumes (db (scored_world resume s f g w)) !! rid
          = Some (set_scoring s f g resume.2)) as Hstored.
  { cbn. rewrite Hid. by rewrite lookup_alter_eq, Hr. }
  split; [done|]. split; [done|]. split; [done|].
  rewrite (get_resume_score_truthy rid cu _ (rid, set_scoring s f g resume.2)).
  - reflexivity.
  - by apply query_resume_owned.
  - cbn. by destruct (Z.eqb_spec s 0).
Qed.

(** X11: when the AI service raises, nothing is stored. In
    [get_resume_score] and [generate_cover_letter_endpoint] the exception
    leaves the handler as it is; in [analyze_resume] it is caught and a 500
    with its text is raised. In all three the call is on record and the
    database is as before: no score, no cover letter, no event. *)
Theorem ai_failure_stores_nothing (cu : UserObj) (w : World) (e : Exception) :
  (∀ rid resume,
     query_resume (db w) rid cu.1 = Some resume →
     truthy_num (score resume.2) = false →
     score_resume (resume_text resume.2) (job_description resume.2) = inl e →
     (get_resume_score rid cu w).2 = inl e
     ∧ db (get_resume_score rid cu w).1 = db w
     ∧ ai_calls (get_resume_score rid cu w).1
       = ai_calls w ++
           [ScoreResume (resume_text resume.2) (job_description resume.2)])
  ∧ (∀ request resume,
       query_resume (db w) (cl_resume_id request) cu.1 = Some resume →
       subscription_type cu.2 ≠ FREE →
       generate_cover_letter (resume_text resume.2)
         (cl_job_description request) (cl_company_name request)
         (cl_position request) = inl e →
       (generate_cover_letter_endpoint request cu w).2 = inl e
       ∧ db (generate_cover_letter_endpoint request cu w).1 = db w)
  ∧ (∀ request data resume,
       req_json request = inr data →
       query_resume_json (db w) (py_get data "resume_id") cu.1 = Some resume →
       analyze_resume_content (resume_text resume.2) (job_description resume.2)
         = inl e →
       (analyze_resume request cu w).2
         = inl (HTTPError (mkHTTPException 500 (exception_str e) []))
       ∧ db (analyze_resume request cu w).1 = db w).
Proof.
  split; [|split].
  - intros rid resume Hq Hfalsy Hs. unfold get_resume_score. run.
    rewrite Hq, Hfalsy. cbn. by rewrite Hs.
  - intros request resume Hq Htier Hgen.
    unfold generate_cover_letter_endpoint. run. rewrite Hq.
    destruct (subscription_type cu.2); [done| |]; run; by rewrite Hgen.
  - intros request data resume Hjson Hq Han. unfold analyze_resume. run.
    rewrite Hjson. run. rewrite Hq. run. by rewrite Han.
Qed.


End Services.

(** ** Listings and statistics *)

Lemma newest_first_Permutation {A} (at_ : A → Z) (l : list A) :
  newest_first at_ l ≡ₚ l.
Proof. apply merge_sort_Permutation. Qed.

(** In [newest_first] order no item is older than one that comes after it. *)
Lemma newest_first_sorted {A} (at_ : A → Z) (l : list A) :
  StronglySorted (λ x y, at_ y ≤ at_ x) (newest_first at_ l).
Proof.
  unfold newest_first.
  assert (StronglySorted (λ x y, Is_true (at_ y <=? at_ x))
            (merge_sort (λ x y, Is_true (at_ y <=? at_ x)) l)) as Hs.
  { apply StronglySorted_merge_sort.
    - intros x y z Hxy Hyz. apply Is_true_true, Z.leb_le.
      apply Is_true_true, Z.leb_le in Hxy, Hyz. lia.
    - intros x y. destruct (Z.le_ge_cases (at_ y) (at_ x)) as [H|H].
      + left. by apply Is_true_true, Z.leb_le.
      + right. by apply Is_true_true, Z.leb_le. }
  induction Hs as [|x k Hk IH Hall]; constructor; [done|].
  eapply Forall_impl; [exact Hall|]. intros y Hy. cbn in Hy.
  by apply Is_true_true, Z.leb_le in Hy.
Qed.

Section Listings.

Context {collaborators : Collaborators}.

(** X13: [list_resumes] returns all of the caller's resumes and nothing
    else, each once, newest first: a row is in the list exactly when it is a
    row of the table with the caller's [user_id], and no resume in the list
    is older than one listed after it. The world is not changed. *)
Theorem list_resumes_complete_and_ordered (cu : UserObj) (w : World) :
  ∃ l, list_resumes cu w = (w, inr l)
       ∧ NoDup l
       ∧ (∀ o, o ∈ l ↔ owned_by cu w o)
       ∧ StronglySorted (λ x y : ResumeObj, created_at y.2 ≤ created_at x.2) l.
Proof.
  destruct (list_resumes_elem cu w) as (l & Hl & Hnd & Hin).
  exists l. split; [done|]. split; [done|]. split; [done|].
  unfold list_resumes in Hl. run. injection Hl as <-.
  apply (newest_first_sorted (λ o : ResumeObj, created_at o.2)).
Qed.

(** X14: [get_resume_history] reports the caller's upload, enhance and
    analyze events, all of them and no others (no download or cover-letter
    event, no event of another user), newest first, each with its action,
    time, resume and metadata. The world is not changed. *)
Theorem history_is_callers_events_newest_first (cu : UserObj) (w : World) :
  ∃ events,
    get_resume_history cu w
    = (w, inr ((λ h, mkHistoryItem (an_action_type h) (an_created_at h)
                       (an_resume_id h) (an_metadata h)) <$> events))
    ∧ events ≡ₚ filter (λ h, an_user_id h = cu.1
                             ∧ an_action_type h ∈
                                 [RESUME_UPLOAD; RESUME_ENHANCE; RESUME_ANALYZE])
                       (analytics (db w))
    ∧ (∀ h, h ∈ events ↔
            h ∈ analytics (db w) ∧ an_user_id h = cu.1
            ∧ an_action_type h ≠ RESUME_DOWNLOAD
            ∧ an_action_type h ≠ COVER_LETTER_GENERATE)
    ∧ StronglySorted (λ x y, an_created_at y ≤ an_created_at x) events.
Proof.
  unfold get_resume_history. run. eexists. split; [reflexivity|].
  split; [apply newest_first_Permutation|]. split.
  - intros h. rewrite newest_first_Permutation, list_elem_of_filter.
    rewrite !elem_of_cons, elem_of_nil. split.
    + intros [[Hu Ha] Hin]. split; [done|]. split; [done|].
      split; intros Heq; rewrite Heq in Ha;
        destruct Ha as [Ha|[Ha|[Ha|[]]]]; discriminate.
    + intros (Hin & Hu & Hd & Hc). split; [|done]. split; [done|].
      destruct (an_action_type h); tauto.
  - apply newest_first_sorted.
Qed.

(** X15: [get_download_stats] counts the caller's [RESUME_DOWNLOAD] events
    and lists one history entry for each. For a PRO caller the remaining
    downloads are reported as -1; for any other caller they are 4 minus the
    count and never below 0: between 0 and 4, adding up to 4 with the count
    while the count is at most 4, and 0 from the fourth download on. The
    world is not changed. *)
Theorem download_stats_bounds (cu : UserObj) (w : World) :
  ∃ stats,
    get_download_stats cu w = (w, inr stats)
    ∧ total_downloads stats
      = Z.of_nat (length (filter (λ a, an_user_id a = cu.1
                                       ∧ an_action_type a = RESUME_DOWNLOAD)
                                 (analytics (db w))))
    ∧ Z.of_nat (length (download_history stats)) = total_downloads stats
    ∧ (subscription_type cu.2 = PRO → remaining_downloads stats = -1)
    ∧ (subscription_type cu.2 ≠ PRO →
         0 ≤ remaining_downloads stats ≤ 4
         ∧ (total_downloads stats ≤ 4 →
              total_downloads stats + remaining_downloads stats = 4)
         ∧ (4 ≤ total_downloads stats → remaining_downloads stats = 0)).
Proof.
  unfold get_download_stats. run. eexists. split; [reflexivity|]. cbn.
  split; [done|]. split; [by rewrite length_fmap|]. split.
  - intros Hpro. by rewrite decide_True.
  - intros Hnot. rewrite decide_False by done. lia.
Qed.

End Listings.

(** ** Analysis and the developer code *)

Section Raw.

Context {collaborators : Collaborators}.

(** X16: with [analyze_resume_content] unbound, as it is in the module,
    [analyze_resume] answers 500 to every request and does nothing: no AI
    call, no event, no row changed. For a body that names a resume of the
    caller's own the 500 carries the text of the [NameError]. *)
Theorem analyze_resume_fails_on_unbound_name
    (request : Request) (cu : UserObj) (w : World) :
  names_unbound collaborators →
  (analyze_resume request cu w).1 = w
  ∧ (∃ msg, (analyze_resume request cu w).2
            = inl (HTTPError (mkHTTPException 500 msg [])))
  ∧ response_status (analyze_resume request cu w).2 = 500
  ∧ (∀ data rid r,
       req_json request = inr data →
       data !! "resume_id" = Some (JNum rid) →
       resumes (db w) !! rid = Some r → user_id r = cu.1 →
       (analyze_resume request cu w).2
       = inl (HTTPError (mkHTTPException 500
                (exception_str (name_error "analyze_resume_content")) []))).
Proof.
  intros [Hname _].
  assert (analyze_resume request cu w
          = (w, match req_json request with
                | inl e => inl (HTTPError (mkHTTPException 500
                                             (exception_str e) []))
                | inr data =>
                    match query_resume_json (db w) (py_get data "resume_id")
                            cu.1 with
                    | None =>
                        inl (HTTPError (mkHTTPException 500
                               (exception_str
                                  (HTTPError (mkHTTPException 404
                                                "Resume not found" []))) []))
                    | Some _ =>
                        inl (HTTPError (mkHTTPException 500
                               (exception_str
                                  (name_error "analyze_resume_content")) []))
                    end
                end)) as Hrun.
  { unfold analyze_resume, evaluate. run.
    destruct (req_json request) as [e|data]; run; [done|].
    destruct (query_resume_json _ _ _) as [o|]; run; [|done].
    by rewrite Hname. }
  rewrite Hrun. cbn [fst snd]. split; [done|].
  split; [|split].
  - destruct (req_json request) as [e|data]; [by eexists|].
    destruct (query_resume_json _ _ _); by eexists.
  - destruct (req_json request) as [e|data]; [done|].
    by destruct (query_resume_json _ _ _).
  - intros data rid r -> Hid Hr Hu. unfold py_get. rewrite Hid. cbn.
    by rewrite (query_resume_owned _ _ _ _ Hr Hu).
Qed.


End Raw.

(** ** All endpoints *)

(** Case analysis on everything a handler branches on. *)
Ltac crunch :=
  repeat (run;
          match goal with
          | |- context [get_current_user ?t ?v] =>
              rewrite (get_current_user_unfold t v)
          | |- context [api_auth_get_current_user ?t ?v] =>
              rewrite (api_auth_get_current_user_unfold t v)
          | |- context [match ?x with _ => _ end] =>
              lazymatch x with
              | context [match _ with _ => _ end] => fail
              | _ => destruct x eqn:?
              end
          end);
  run.

Section AllEndpoints.

Context {collaborators : Collaborators}.

Lemma authenticated_unfold {A} dependency (h : UserObj → Handler A) w :
  (dependency w).1 = w →
  authenticated dependency h w
  = match (dependency w).2 with
    | inl e => (w, inl e)
    | inr cu => ((h cu w).1, match (h cu w).2 with
                             | inl e => inl e
                             | inr _ => inr tt
                             end)
    end.
Proof.
  unfold authenticated. run. intros Hw.
  destruct (dependency w) as [w' [e|cu]]; cbn in *; subst w';
    [done|]. by destruct (h cu w) as [w' [e|a]].
Qed.

(** From a call to the handler that serves it, for any user the token may
    resolve to. *)
Ltac into_handler c w :=
  destruct c; cbn [serve];
  rewrite ?authenticated_unfold by dependency_reads;
  rewrite ?anonymous_world;
  try (destruct ((api_auth_get_current_user _ w).2) as [?|[? ?]] eqn:Hcu;
       [|apply api_auth_get_current_user_row in Hcu]; cbn [fst]);
  try (destruct ((get_current_user _ w).2) as [?|[? ?]] eqn:Hcu;
       [|apply get_current_user_row in Hcu]; cbn [fst]);
  unfold upload_resume, enhance_resume_endpoint, get_resume_score,
         generate_cover_letter_endpoint, list_resumes, get_resume,
         delete_resume, analyze_resume, get_resume_history,
         validate_developer_code, get_download_stats, signup, signin,
         signout, get_current_user_info, reset_password,
         create_access_token, get_current_user_of_request, evaluate,
         unprocessable_resume_id;
  rewrite ?get_current_user_unfold, ?api_auth_get_current_user_unfold;
  crunch; cbn.

(** X19: a call makes at most one call to the AI service and queues at most
    one background task, and only some endpoints do either: the scorer is
    called by the score endpoint alone, the cover-letter generator by the
    cover-letter endpoint alone, the analysis by the analyze endpoint alone;
    the LinkedIn extraction is queued by upload alone and the enhancement by
    enhance alone. Earlier calls and tasks stay on record in order. *)
Theorem effects_of_a_call (c : ApiCall) (w : World) :
  (ai_calls (serve c w).1 = ai_calls w
   ∨ ∃ call, ai_calls (serve c w).1 = ai_calls w ++ [call] ∧ may_call c call)
  ∧ (background_tasks (serve c w).1 = background_tasks w
     ∨ ∃ t, background_tasks (serve c w).1 = background_tasks w ++ [t]
            ∧ may_queue c t).
Proof.
  into_handler c w;
    (split; [first [by left | right; eexists; by split]
            |first [by left | right; eexists; by split]]).
Qed.

(** X20: the version and analytics tables are append-only under every
    endpoint: after any call the rows there were are still there, in the
    same order, at the front. *)
Theorem logs_are_append_only (c : ApiCall) (w : World) :
  analytics (db w) `prefix_of` analytics (db (serve c w).1)
  ∧ versions (db w) `prefix_of` versions (db (serve c w).1).
Proof.
  into_handler c w;
    (split; first [by eexists | by (exists []; rewrite app_nil_r)]).
Qed.


(** X22: no endpoint deletes a user row or touches its credentials, and
    the only changes to the entitlement are the two the code makes. After
    any call a user row is still stored under its id with the same e-mail,
    password hash and name ([reset_password] included); its tier is what it
    was or PRO; and its counter is what it was, or one lower, or -1. *)
Theorem user_row_survives_every_call
    (c : ApiCall) (w : World) (uid : string) (u : User) :
  users (db w) !! uid = Some u →
  ∃ u', users (db (serve c w).1) !! uid = Some u'
        ∧ email u' = email u
        ∧ password u' = password u
        ∧ full_name u' = full_name u
        ∧ (subscription_type u' = subscription_type u
           ∨ subscription_type u' = PRO)
        ∧ (remaining_enhancements u' = remaining_enhancements u
           ∨ remaining_enhancements u' = remaining_enhancements u - 1
           ∨ remaining_enhancements u' = -1).
Proof.
  intros Hu.
  assert (∀ v, ∃ u', <[fresh (dom (users (db w))) := v]> (users (db w))
                        !! uid = Some u'
                      ∧ email u' = email u
                      ∧ password u' = password u
                      ∧ full_name u' = full_name u
                      ∧ (subscription_type u' = subscription_type u
                         ∨ subscription_type u' = PRO)
                      ∧ (remaining_enhancements u' = remaining_enhancements u
                         ∨ remaining_enhancements u'
                           = remaining_enhancements u - 1
                         ∨ remaining_enhancements u' = -1)) as Hinsert.
  { intros v. exists u. rewrite lookup_insert_ne; [by auto 10|].
    intros Heq. pose proof (fresh_user_id_unused w) as Hfresh.
    rewrite Heq in Hfresh. congruence. }
  into_handler c w;
    try (exists u; by auto 10);
    try apply Hinsert;
    unfold query_user_by_subject, query_user in *;
    repeat match goal with
           | H : context [match ?x with _ => _ end] |- _ =>
               destruct x eqn:?; try discriminate
           end;
    repeat match goal with
           | H : Some _ = Some _ |- _ => injection H as <-
           end;
    match goal with
    | |- context [alter _ ?k _] =>
        destruct (decide (k = uid)) as [->|Hne];
        [rewrite lookup_alter_eq, Hu; cbn; eexists; split; [done|];
         repeat match goal with
                | H1 : users (db w) !! uid = Some _,
                  H2 : users (db w) !! uid = Some _ |- _ =>
                    rewrite H1 in H2; injection H2 as <-
                end;
         by auto 10
        |rewrite lookup_alter_ne by done; exists u; by auto 10]
    end.
Qed.

End AllEndpoints.

(** ** Entitlements over several requests *)

(** X23: PRO is unlimited and free of charge. A PRO user, whatever the
    counter on the row, is never turned away by [upload_resume] or, for a
    resume of their own, by [enhance_resume_endpoint]; both return the
    resume, and neither changes the user table. *)
Theorem pro_is_never_blocked_or_charged (cu : UserObj) (w : World) :
  subscription_type cu.2 = PRO →
  (∀ data,
     response_status (upload_resume data cu w).2 = 200
     ∧ users (db (upload_resume data cu w).1) = users (db w))
  ∧ (∀ request resume,
       query_resume (db w) (er_resume_id request) cu.1 = Some resume →
       (enhance_resume_endpoint request cu w).2 = inr resume
       ∧ users (db (enhance_resume_endpoint request cu w).1) = users (db w)).
Proof.
  intros Hpro. split.
  - intros data. split; [|apply upload_resume_users].
    rewrite upload_resume_entitled; [done|]. by left.
  - intros request resume Hq. by rewrite (enhance_pro _ _ _ _ Hpro Hq).
Qed.

Lemma enhance_repeatedly_exhausted k request uid w u :
  users (db w) !! uid = Some u →
  subscription_type u = ONE_TIME → remaining_enhancements u ≤ 0 →
  is_Some (query_resume (db w) (er_resume_id request) uid) →
  enhance_repeatedly k request uid w = (w, O).
Proof.
  intros Hu Hone Hle [resume Hq]. induction k as [|k IH]; [done|].
  cbn [enhance_repeatedly]. rewrite Hu.
  destruct (enhance_one_time_exhausted request (uid, u) w resume Hone Hq Hle)
    as [Hw (msg & hs & Hout)].
  cbn zeta. rewrite Hout, Hw, IH. reflexivity.
Qed.

(** X24: a ONE_TIME user gets exactly as many enhancements as the counter
    says. With [n >= 0] on the counter and a resume of their own, of [k]
    requests in a row the first [min k n] go through and the others are
    refused; the counter ends at [n - min k n], never below zero; and one
    enhancement task is queued for each request that went through. *)
Theorem one_time_user_gets_n_enhancements
    (k : nat) (request : ResumeEnhanceRequest) (uid : string)
    (w : World) (u : User) :
  users (db w) !! uid = Some u →
  subscription_type u = ONE_TIME →
  0 ≤ remaining_enhancements u →
  is_Some (query_resume (db w) (er_resume_id request) uid) →
  let served := Nat.min k (Z.to_nat (remaining_enhancements u)) in
  let out := enhance_repeatedly k request uid w in
  out.2 = served
  ∧ users (db out.1) !! uid
    = Some (set_remaining_enhancements
              (remaining_enhancements u - Z.of_nat served) u)
  ∧ length (background_tasks out.1)
    = (length (background_tasks w) + served)%nat.
Proof.
  cbn zeta. revert w u.
  induction k as [|k IH]; intros w u Hu Hone Hpos Hq.
  { cbn. rewrite Z.sub_0_r. split; [done|]. split; [|lia].
    rewrite Hu. by destruct u. }
  destruct (decide (remaining_enhancements u = 0)) as [Hzero|Hnz].
  - rewrite (enhance_repeatedly_exhausted _ _ _ _ u Hu Hone); [|lia|done].
    rewrite Hzero. cbn [Z.to_nat fst snd]. rewrite Nat.min_0_r.
    cbn. split; [done|]. split; [|lia].
    rewrite Hu. destruct u; cbn in *; by subst.
  - destruct Hq as [resume Hq].
    cbn [enhance_repeatedly]. rewrite Hu. cbn zeta.
    rewrite (enhance_one_time_positive request (uid, u) w resume Hone Hq)
      by (cbn; lia).
    cbn [fst snd].
    set (u1 := set_remaining_enhancements (remaining_enhancements u - 1) u).
    set (w1 := enhanced_world _ _ _ _ _).
    assert (users (db w1) !! uid = Some u1) as Hu1
      by (cbn; by rewrite lookup_alter_eq, Hu).
    assert (is_Some (query_resume (db w1) (er_resume_id request) uid)) as Hq1
      by (exists resume; exact Hq).
    destruct (IH w1 u1 Hu1 Hone ltac:(cbn; lia) Hq1) as (Hn & Hrow & Hlen).
    cbn [remaining_enhancements u1 set_remaining_enhancements] in Hn, Hrow, Hlen.
    replace (Nat.min (S k) (Z.to_nat (remaining_enhancements u)))
      with (S (Nat.min k (Z.to_nat (remaining_enhancements u - 1)))) by lia.
    split; [by rewrite Hn|]. split.
    + rewrite Hrow. f_equal. unfold set_remaining_enhancements. cbn.
      f_equal. lia.
    + rewrite Hlen. cbn. rewrite length_app. cbn. lia.
Qed.

(** ** The further properties at work *)

Lemma Ref_hash_verifies : hash_verifies Ref.collaborators.
Proof. intros pw. cbn. unfold Ref.verify. apply String.eqb_refl. Qed.

Lemma Ref_decode_unexpired : jwt_accepts_unexpired Ref.collaborators.
Proof.
  intros payload key alg e time Hexp Hlt. cbn. unfold Ref.decode, Ref.encode.
  cbn. rewrite decide_True by (split; [done | set_solver]).
  rewrite Hexp. destruct (Z.ltb_spec e time); [lia | done].
Qed.

Section FurtherExamples.

Local Existing Instance Ref.collaborators.

(** Bob signs up, and a second form with his e-mail is refused. *)
Lemma signup_registers_an_email_once_witness :
  response_status (signup bob pro_world).2 = 200
  ∧ rejected 400 (signup bob pro_world).1
      (signup (mkUserCreate "bob@example.org" "other" "Robert")
         (signup bob pro_world).1).
Proof.
  destruct (proj2 (signup_registers_an_email_once bob pro_world))
    as (uid & Hout & _ & _ & _ & _ & Hagain); [vm_compute; reflexivity|].
  split; [by rewrite Hout | by apply Hagain].
Defined.

(** Bob signs up and signs in. *)
Lemma signup_then_signin_witness :
  ∃ uid,
    (signup bob pro_world).2 = inr (uid, signed_up_user bob)
    ∧ signin (mkForm (uc_email bob) (uc_password bob)) (signup bob pro_world).1
      = ((signup bob pro_world).1,
         inr (mkTokenResponse
                (jwt_encode
                   (<["exp" := JNum (utcnow pro_world + 1800)]>
                      {["sub" := JStr uid]})
                   SECRET_KEY ALGORITHM)
                "bearer")).
Proof.
  apply (signup_then_signin bob pro_world Ref_hash_verifies).
  vm_compute. reflexivity.
Defined.

(** Ann's token resolves to her row until it expires. *)
Lemma signin_token_resolves_to_user_witness :
  ∃ uid u,
    query_user_by_email (db pro_world) "ann@example.org" = Some (uid, u)
    ∧ ∀ w' u',
        utcnow w' < utcnow pro_world + 1800 →
        users (db w') !! uid = Some u' →
        get_current_user ann_token w' = (w', inr (uid, u')).
Proof.
  apply (signin_token_resolves_to_user (mkForm "ann@example.org" "pw")
           pro_world (mkTokenResponse ann_token "bearer")
           Ref_decode_unexpired).
  vm_compute. reflexivity.
Defined.

(** Ann uploads a resume and reads it back. *)
Lemma uploaded_resume_is_readable_by_owner_witness :
  ∃ rid,
    (upload_resume cv pro_ann pro_world).2
    = inr (rid, uploaded_resume cv pro_ann 1000)
    ∧ get_resume rid pro_ann (upload_resume cv pro_ann pro_world).1
      = ((upload_resume cv pro_ann pro_world).1,
         inr (rid, uploaded_resume cv pro_ann 1000)).
Proof.
  destruct (uploaded_resume_is_readable_by_owner cv pro_ann pro_world)
    as (rid & Hout & _ & Hget & _); [by left|].
  exists rid. split; [exact Hout | exact Hget].
Defined.

(** ... which returns the new resume, stores its first version, queues the
    LinkedIn extraction for it and makes no AI call. *)
Lemma upload_bookkeeping_witness :
  ∃ rid row,
    (upload_resume cv pro_ann pro_world).2 = inr (rid, row)
    ∧ resumes (db (upload_resume cv pro_ann pro_world).1) !! rid = Some row
    ∧ background_tasks (upload_resume cv pro_ann pro_world).1
      = [ExtractLinkedinProfile "https://linkedin.example/ann" rid]
    ∧ versions (db (upload_resume cv pro_ann pro_world).1)
      = [mkResumeVersion rid "cv" 1]
    ∧ ai_calls (upload_resume cv pro_ann pro_world).1 = [].
Proof.
  destruct (upload_bookkeeping cv pro_ann pro_world)
    as (rid & row & event & hj & hl & Hret & _ & Hrow & _ & _ & _ & _ & Hv
        & _ & _ & _ & _ & _ & _ & _ & Hai & Htask & _); [by left|].
  exists rid, row. split; [exact Hret|]. split; [exact Hrow|].
  split; [|split; [exact Hv | exact Hai]].
  apply (Htask "https://linkedin.example/ann"); [reflexivity | done].
Defined.

(** With the counter at zero the upload is refused. *)
Lemma upload_blocked_without_enhancements_witness :
  rejected 403 (Ref.world ONE_TIME 0 None)
    (upload_resume cv ("u1", Ref.user ONE_TIME 0) (Ref.world ONE_TIME 0 None)).
Proof.
  apply upload_blocked_without_enhancements; [reflexivity | cbn; lia].
Defined.

(** Ann deletes resume 1; resume 2 stays. *)
Lemma deleted_resume_is_gone_witness :
  resumes (db (delete_resume 1 pro_ann pro_world).1) !! 1 = None
  ∧ rejected 404 (delete_resume 1 pro_ann pro_world).1
      (get_resume 1 pro_ann (delete_resume 1 pro_ann pro_world).1)
  ∧ resumes (db (delete_resume 1 pro_ann pro_world).1) !! 2
    = resumes (db pro_world) !! 2.
Proof.
  destruct (deleted_resume_is_gone 1 pro_ann pro_world (Ref.resume "u1" None))
    as (_ & Hgone & Hget & _ & Hother & _);
    [vm_compute; reflexivity | reflexivity |].
  split; [exact Hgone|]. split; [exact Hget|]. by apply Hother.
Defined.

(** The enhancement of resume 1 is queued with the job description of the
    request. *)
Lemma enhance_queues_one_task_witness :
  background_tasks
    (enhance_resume_endpoint (mkResumeEnhanceRequest 1 (Some "engineer"))
       pro_ann pro_world).1
  = [EnhanceResume 1 (Some "engineer")].
Proof.
  destruct (enhance_queues_one_task (mkResumeEnhanceRequest 1 (Some "engineer"))
              pro_ann pro_world) as [Hok _].
  destruct (Hok (1, Ref.resume "u1" None)) as (_ & _ & _ & _ & Htask & _);
    [vm_compute; reflexivity|].
  exact Htask.
Defined.

(** Resume 1 is scored 80 once; the second request is answered from the row. *)
Lemma score_is_computed_once_witness :
  (get_resume_score 1 pro_ann pro_world).2
  = inr (mkResumeScoreResponse (Some 80) (Some "feedback") (Some "suggestions"))
  ∧ get_resume_score 1 pro_ann (get_resume_score 1 pro_ann pro_world).1
    = ((get_resume_score 1 pro_ann pro_world).1,
       (get_resume_score 1 pro_ann pro_world).2).
Proof.
  destruct (score_is_computed_once 1 pro_ann pro_world
              (1, Ref.resume "u1" None) 80 "feedback" "suggestions")
    as (Hfirst & _ & _ & Hsecond);
    [vm_compute; reflexivity | reflexivity | reflexivity | done |].
  split; [exact Hfirst | exact Hsecond].
Defined.




(** Ann's row after she asks for a password reset. *)
Lemma user_row_survives_every_call_witness :
  ∃ u', users (db (serve (PostResetPassword "ann@example.org") pro_world).1)
          !! "u1" = Some u'
        ∧ email u' = "ann@example.org"
        ∧ password u' = Ref.hash "pw".
Proof.
  destruct (user_row_survives_every_call (PostResetPassword "ann@example.org")
              pro_world "u1" (Ref.user PRO (-1)))
    as (u' & Hrow & Hemail & Hpw & _); [vm_compute; reflexivity|].
  exists u'. split; [exact Hrow|]. split; [exact Hemail | exact Hpw].
Defined.

(** Ann on PRO enhances resume 1 and is charged nothing. *)
Lemma pro_is_never_blocked_or_charged_witness :
  (enhance_resume_endpoint (mkResumeEnhanceRequest 1 None) pro_ann pro_world).2
  = inr (1, Ref.resume "u1" None)
  ∧ users (db (enhance_resume_endpoint (mkResumeEnhanceRequest 1 None)
                 pro_ann pro_world).1)
    = users (db pro_world).
Proof.
  apply (proj2 (pro_is_never_blocked_or_charged pro_ann pro_world eq_refl)).
  vm_compute. reflexivity.
Defined.

(** With three enhancements left, five requests give three enhancements. *)
Lemma one_time_user_gets_n_enhancements_witness :
  (enhance_repeatedly 5 (mkResumeEnhanceRequest 1 None) "u1" one_time_world).2
  = 3%nat
  ∧ users (db (enhance_repeatedly 5 (mkResumeEnhanceRequest 1 None) "u1"
                 one_time_world).1) !! "u1"
    = Some (Ref.user ONE_TIME 0).
Proof.
  destruct (one_time_user_gets_n_enhancements 5
              (mkResumeEnhanceRequest 1 None) "u1" one_time_world
              (Ref.user ONE_TIME 3))
    as (Hn & Hrow & _);
    [vm_compute; reflexivity | reflexivity | cbn; lia
    | vm_compute; eauto |].
  split; [exact Hn | exact Hrow].
Defined.

End FurtherExamples.

Section ServiceDown.

Local Existing Instance ai_down.

(** With the AI service out of order a score request fails and stores
    nothing. *)
Lemma ai_failure_stores_nothing_witness :
  (get_resume_score 1 pro_ann pro_world).2 = inl (OtherError "unavailable")
  ∧ db (get_resume_score 1 pro_ann pro_world).1 = db pro_world.
Proof.
  destruct (ai_failure_stores_nothing pro_ann pro_world
              (OtherError "unavailable")) as (Hscore & _ & _).
  destruct (Hscore 1 (1, Ref.resume "u1" None)) as (Hout & Hdb & _);
    [vm_compute; reflexivity | reflexivity | reflexivity |].
  split; [exact Hout | exact Hdb].
Defined.

End ServiceDown.

Section AsItStands.

Local Existing Instance as_it_stands.

Lemma as_it_stands_names_unbound : names_unbound as_it_stands.
Proof. split; intros; reflexivity. Qed.

(** Ann asks for an analysis of her resume 1: 500, and nothing is logged. *)
Lemma analyze_resume_fails_on_unbound_name_witness :
  (analyze_resume (@mkRequest as_it_stands ann_token
                (inr {["resume_id" := JNum 1]}))
     pro_ann pro_world).2
  = inl (HTTPError (mkHTTPException 500
           "NameError: name 'analyze_resume_content' is not defined" []))
  ∧ (analyze_resume (@mkRequest as_it_stands ann_token
                (inr {["resume_id" := JNum 1]}))
       pro_ann pro_world).1
    = pro_world.
Proof.
  destruct (analyze_resume_fails_on_unbound_name
              (@mkRequest as_it_stands ann_token
                (inr {["resume_id" := JNum 1]}))
              pro_ann pro_world as_it_stands_names_unbound)
    as (Hw & _ & _ & Hown).
  split; [|exact Hw].
  apply (Hown {["resume_id" := JNum 1]} 1 (Ref.resume "u1" None));
    first [reflexivity | vm_compute; reflexivity].
Defined.

End AsItStands.

